(** * NetAppTesting: chat persistence store, node control channel, user store

    A shallow embedding of [src/chatroom_manager.py], [src/node_controller.py]
    and [src/user_management.py], and the properties of the specification
    checked against it.

    Conventions of the embedding.
    - A Python [str] is a [string]; its characters are the code points
      0..255.  Comparison of strings is Python's: lexicographic on code
      points.
    - A directory of JSON files is a finite map from the file's key to the
      record the file holds ([json.load] after [json.dump] is the identity on
      the records modelled here).
    - [time.time()] and [uuid.uuid4()] are inputs of the operation that calls
      them.  A time stamp is a finite double; it is represented by the
      integer [k] with value [k * 2^-1074], which preserves and reflects
      [<], [==] and truthiness ([k = 0] is the falsy [0.0]).
    - A method that writes files takes the directory and returns its result
      paired with the directory afterwards. *)

From Stdlib Require Import ZArith Lia String Ascii List.
From stdpp Require Import base option list sorting gmap strings.

Open Scope string_scope.
Open Scope list_scope.
Open Scope nat_scope.

(** ** Python built-ins used by the sources *)
Module Py.

(** [x in l] for a list of strings. *)
Definition contains (x : string) (l : list string) : bool :=
  bool_decide (x ∈ l).

(** [l.remove(x)]: deletes the first occurrence.  Python raises
    [ValueError] when there is none; every call site checks membership
    first, and the model leaves the list alone there. *)
Fixpoint remove (x : string) (l : list string) : list string :=
  match l with
  | [] => []
  | y :: l' => if decide (x = y) then l' else y :: remove x l'
  end.

(** [sorted(l)] for a list of strings: a stable ascending sort. *)
Fixpoint insert_sorted (x : string) (l : list string) : list string :=
  match l with
  | [] => [x]
  | y :: l' => if String.leb x y then x :: l else y :: insert_sorted x l'
  end.

Definition sorted (l : list string) : list string :=
  foldr insert_sorted [] l.

(** [set(l1) == set(l2)]. *)
Definition set_eq (l1 l2 : list string) : bool :=
  bool_decide (list_to_set l1 =@{gset string} list_to_set l2).

(** [s.startswith(p)]. *)
Definition startswith (p s : string) : bool := String.prefix p s.

(** [s.replace(old, new)] for one-character [old] and [new]. *)
Fixpoint replace (old new : ascii) (s : string) : string :=
  match s with
  | EmptyString => EmptyString
  | String c s' =>
      String (if Ascii.eqb c old then new else c) (replace old new s')
  end.

(** [c.isspace()] on the code points below 256: TAB..CR, FS..US, space,
    NEL and NBSP. *)
Definition isspace (c : ascii) : bool :=
  let n := N_of_ascii c in
  ((9 <=? n) && (n <=? 13) || (28 <=? n) && (n <=? 32)
   || (n =? 133) || (n =? 160))%N.

Fixpoint lstrip (s : string) : string :=
  match s with
  | EmptyString => EmptyString
  | String c s' => if isspace c then lstrip s' else s
  end.

(** [rstrip] keeps a character when it is not a space or something
    that is kept follows it. *)
Fixpoint rstrip (s : string) : string :=
  match s with
  | EmptyString => EmptyString
  | String c s' =>
      match rstrip s' with
      | EmptyString => if isspace c then EmptyString else String c EmptyString
      | r => String c r
      end
  end.

(** [s.strip()]. *)
Definition strip (s : string) : string := rstrip (lstrip s).

(** [l[-n:]]: the last [n] elements, all of [l] when it is shorter. *)
Definition last_n {A} (n : nat) (l : list A) : list A :=
  drop (length l - n) l.

(** [l[:n]] for an [int] bound: a negative bound counts from the end. *)
Definition slice_to {A} (n : Z) (l : list A) : list A :=
  if (0 <=? n)%Z then take (Z.to_nat n) l
  else take (length l - Z.to_nat (- n)) l.

(** [l.sort(key=k, reverse=True)]: stable, descending in the key. *)
Section SortDesc.
Context {A : Type} (key : A → Z).

Fixpoint insert_desc (x : A) (l : list A) : list A :=
  match l with
  | [] => [x]
  | y :: l' =>
      if (key y <=? key x)%Z then x :: l else y :: insert_desc x l'
  end.

Definition sort_desc (l : list A) : list A := foldr insert_desc [] l.
End SortDesc.

End Py.

(** ** What a path names

    The sources build the path of a file from a name they are given
    ([os.path.join(users_dir, f"{username}.json")]) and hand it to [open]
    and [os.path.exists].  This is the lookup of the path by the system,
    in a tree that holds the directories listed in [tree] and no other:
    the program runs in the root, ["."] stays, [".."] goes up, a
    component that is not a directory of the tree ends the lookup, and so
    do a NUL, a component of more than 255 bytes and a path of 4096 bytes
    or more. *)
Module Posix.

(** Directories, each by its components from the root. *)
Abbreviation tree := (list (list string)).

(** The bytes of a string in UTF-8. *)
Fixpoint byte_length (s : string) : nat :=
  match s with
  | EmptyString => 0
  | String c s' =>
      (if (N_of_ascii c <? 128)%N then 1 else 2) + byte_length s'
  end.

Fixpoint has_char (c : ascii) (s : string) : bool :=
  match s with
  | EmptyString => false
  | String d s' => Ascii.eqb d c || has_char c s'
  end.

(** [s.split("/")]. *)
Fixpoint split (s : string) : list string :=
  match s with
  | EmptyString => [EmptyString]
  | String c s' =>
      if Ascii.eqb c "/" then EmptyString :: split s'
      else match split s' with
           | h :: t => String c h :: t
           | [] => [String c EmptyString]
           end
  end.

(** [os.path.join(directory, rest)] for a directory without a final
    slash: an absolute [rest] replaces the directory. *)
Definition join (directory rest : string) : string :=
  if Py.startswith "/" rest then rest else directory +:+ "/" +:+ rest.

(** The last component names a file that can be opened or made: a name,
    not a directory. *)
Definition file_name (dirs : tree) (here : list string) (f : string)
  : bool :=
  negb (String.eqb f "") && negb (String.eqb f ".")
  && negb (String.eqb f "..")
  && bool_decide (byte_length f ≤ 255)
  && negb (bool_decide (here ++ [f] ∈ dirs)).

Fixpoint walk (dirs : tree) (here : list string) (components : list string)
  : option (list string * string) :=
  match components with
  | [] => None
  | c :: rest =>
      match rest with
      | [] => if file_name dirs here c then Some (here, c) else None
      | _ =>
          if String.eqb c "" || String.eqb c "." then walk dirs here rest
          else if String.eqb c ".." then walk dirs (removelast here) rest
          else if bool_decide (here ++ [c] ∈ dirs)
               then walk dirs (here ++ [c]) rest
               else None
      end
  end.

(** The directory and the name of the file a path leads to, if any. *)
Definition locate (dirs : tree) (path : string)
  : option (list string * string) :=
  if has_char "000" path then None
  else if bool_decide (4096 ≤ byte_length path) then None
  else walk dirs [] (split path).

(** The absolute path of a file. *)
Definition absolute (here : list string) (f : string) : string :=
  foldr (λ c p, "/" +:+ c +:+ p) ("/" +:+ f) here.

(** The name of a file without its last [n] characters, the
    extension. *)
Definition stem (n : nat) (f : string) : string :=
  String.substring 0 (String.length f - n) f.

(** The key of the file a path leads to, in a map of the files reached
    from the directory [home]: a file of [home] by its name without the
    extension of [n] characters, a file elsewhere by its absolute path. *)
Definition key (dirs : tree) (home : list string) (n : nat) (path : string)
  : option string :=
  match locate dirs path with
  | Some (here, f) =>
      Some (if bool_decide (here = home) then stem n f else absolute here f)
  | None => None
  end.

(** A plain file name: no ["/"], no NUL, at most 255 bytes. *)
Definition plain (name : string) : bool :=
  negb (has_char "/" name) && negb (has_char "000" name)
  && bool_decide (byte_length name ≤ 255).

End Posix.

(** ** [src/chatroom_manager.py] *)
Module ChatroomManager.

(** A message of a room's ["messages"] list.  ["file_info"] is a JSON
    object, kept as its key/value pairs; the key is absent for [None]. *)
Record message := Message {
  msg_id : string;
  sender : string;
  content : string;
  msg_type : string;
  timestamp : Z;
  file_info : option (list (string * string))
}.

(** The record of one [<id>.json] file. *)
Record chatroom := Chatroom {
  room_id : string;
  room_name : string;
  creator : string;
  created_at : Z;
  members : list string;
  messages : list message
}.

(** The directory [chatrooms_dir]: room files by the id in their name.
    [get_chatroom] returns [None] for a missing file; the callers test
    [chatroom_exists] first, so their [None] branch is never taken.
    Ids are eight characters of a UUID, so the attachment directory
    [<id>] that [create_chatroom] makes never ends in [.json] and is
    skipped by every scan. *)
Abbreviation store := (gmap string chatroom).

Definition generate_chatroom_id (uuid : string) : string :=
  String.substring 0 8 uuid.

Definition chatroom_exists (chatroom_id : string) (st : store) : bool :=
  bool_decide (is_Some (st !! chatroom_id)).

Definition get_chatroom (chatroom_id : string) (st : store)
  : option chatroom :=
  if negb (chatroom_exists chatroom_id st) then None else st !! chatroom_id.

(** [members=None] is [None]; the creator is appended when missing. *)
Definition create_chatroom (uuid : string) (now : Z)
    (name creator0 : string) (members0 : option (list string)) (st : store)
  : (bool * string * string) * store :=
  let members1 := default [] members0 in
  let members2 :=
    if Py.contains creator0 members1 then members1
    else members1 ++ [creator0] in
  let chatroom_id := generate_chatroom_id uuid in
  let chatroom_data :=
    {| room_id := chatroom_id; room_name := name; creator := creator0;
       created_at := now; members := members2; messages := [] |} in
  ((true, "Chatroom created successfully", chatroom_id),
   <[chatroom_id := chatroom_data]> st).

Definition set_members (ms : list string) (r : chatroom) : chatroom :=
  {| room_id := room_id r; room_name := room_name r; creator := creator r;
     created_at := created_at r; members := ms; messages := messages r |}.

Definition set_messages (ms : list message) (r : chatroom) : chatroom :=
  {| room_id := room_id r; room_name := room_name r; creator := creator r;
     created_at := created_at r; members := members r; messages := ms |}.

Definition add_member (chatroom_id username : string) (st : store)
  : (bool * string) * store :=
  if negb (chatroom_exists chatroom_id st)
  then ((false, "Chatroom does not exist"), st)
  else match get_chatroom chatroom_id st with
  | None => ((false, "Chatroom does not exist"), st)
  | Some chatroom_data =>
      if Py.contains username (members chatroom_data)
      then ((false, "User already a member"), st)
      else ((true, "Member added successfully"),
            <[chatroom_id :=
                set_members (members chatroom_data ++ [username])
                  chatroom_data]> st)
  end.

Definition remove_member (chatroom_id username : string) (st : store)
  : (bool * string) * store :=
  if negb (chatroom_exists chatroom_id st)
  then ((false, "Chatroom does not exist"), st)
  else match get_chatroom chatroom_id st with
  | None => ((false, "Chatroom does not exist"), st)
  | Some chatroom_data =>
      if negb (Py.contains username (members chatroom_data))
      then ((false, "User is not a member"), st)
      else if decide (username = creator chatroom_data)
      then ((false, "Cannot remove the creator of the chatroom"), st)
      else ((true, "Member removed successfully"),
            <[chatroom_id :=
                set_members (Py.remove username (members chatroom_data))
                  chatroom_data]> st)
  end.

(** [file_info] is stored only for a ["file"] message with a non-empty
    descriptor ([None] and [{}] are falsy). *)
Definition truthy_info (fi : option (list (string * string))) : bool :=
  match fi with
  | Some (_ :: _) => true
  | _ => false
  end.

Definition add_message (uuid : string) (now : Z)
    (chatroom_id sender0 content0 message_type : string)
    (file_info0 : option (list (string * string))) (st : store)
  : (bool * string * option message) * store :=
  if negb (chatroom_exists chatroom_id st)
  then ((false, "Chatroom does not exist", None), st)
  else match get_chatroom chatroom_id st with
  | None => ((false, "Chatroom does not exist", None), st)
  | Some chatroom_data =>
      if negb (Py.contains sender0 (members chatroom_data))
      then ((false, "Only members can send messages", None), st)
      else
        let message_data :=
          {| msg_id := uuid; sender := sender0; content := content0;
             msg_type := message_type; timestamp := now;
             file_info :=
               if bool_decide (message_type = "file")
                  && truthy_info file_info0
               then file_info0 else None |} in
        ((true, "Message added successfully", Some message_data),
         <[chatroom_id :=
             set_messages (messages chatroom_data ++ [message_data])
               chatroom_data]> st)
  end.

(** [if before_timestamp:] is false for [None] and for zero. *)
Definition get_messages (chatroom_id : string) (limit : Z)
    (before_timestamp : option Z) (st : store) : list message :=
  if negb (chatroom_exists chatroom_id st) then []
  else match get_chatroom chatroom_id st with
  | None => []
  | Some chatroom_data =>
      let messages0 := messages chatroom_data in
      let messages1 :=
        match before_timestamp with
        | Some b =>
            if (b =? 0)%Z then messages0
            else filter (λ m, (timestamp m < b)%Z) messages0
        | None => messages0
        end in
      Py.slice_to limit (Py.sort_desc timestamp messages1)
  end.

(** *** Scans of the directory

    [os.listdir] returns the names in an order of its own; the order is
    a function of the directory's content. *)
Section Scan.
Variable listdir : store → list string.

Definition is_direct_message (users : list string) (r : chatroom)
  : bool :=
  Py.startswith "DM_" (room_name r)
  && Py.set_eq (members r) users
  && bool_decide (length (members r) = 2).

(** The loop of [create_direct_message]: the id stored in the first
    file, in listing order, that is a DM room of [users].  Every listed
    name has its file, so the [None] branch of the lookup (where Python's
    [open] would raise) is not taken. *)
Fixpoint find_direct_message (users : list string) (st : store)
    (filenames : list string) : option string :=
  match filenames with
  | [] => None
  | filename :: rest =>
      match st !! filename with
      | Some chatroom_data =>
          if is_direct_message users chatroom_data
          then Some (room_id chatroom_data)
          else find_direct_message users st rest
      | None => find_direct_message users st rest
      end
  end.

Definition create_direct_message (uuid : string) (now : Z)
    (user1 user2 : string) (st : store)
  : (option string * bool) * store :=
  let users := Py.sorted [user1; user2] in
  let dm_name := "DM_" +:+ users !!! 0 +:+ "_" +:+ users !!! 1 in
  match find_direct_message users st (listdir st) with
  | Some found => ((Some found, false), st)
  | None =>
      let '((success, _, chatroom_id), st') :=
        create_chatroom uuid now dm_name (users !!! 0) (Some users) st in
      if success then ((Some chatroom_id, true), st')
      else ((None, false), st')
  end.

(** *** Sequences of store operations *)
Inductive op :=
| CreateChatroom (uuid : string) (now : Z) (name creator0 : string)
    (members0 : option (list string))
| AddMember (chatroom_id username : string)
| RemoveMember (chatroom_id username : string)
| AddMessage (uuid : string) (now : Z)
    (chatroom_id sender0 content0 message_type : string)
    (file_info0 : option (list (string * string)))
| CreateDirectMessage (uuid : string) (now : Z) (user1 user2 : string).

Definition apply_op (o : op) (st : store) : store :=
  match o with
  | CreateChatroom uuid now name c ms =>
      (create_chatroom uuid now name c ms st).2
  | AddMember i u => (add_member i u st).2
  | RemoveMember i u => (remove_member i u st).2
  | AddMessage uuid now i s c t fi =>
      (add_message uuid now i s c t fi st).2
  | CreateDirectMessage uuid now u1 u2 =>
      (create_direct_message uuid now u1 u2 st).2
  end.

(** The directory after the operations [ops], first one first. *)
Definition run (ops : list op) (st : store) : store :=
  foldl (λ s o, apply_op o s) st ops.

(** An operation that hands [create_chatroom] a list of distinct
    members. *)
Definition distinct_members (o : op) : Prop :=
  match o with
  | CreateChatroom _ _ _ _ ms => NoDup (default [] ms)
  | CreateDirectMessage _ _ u1 u2 => u1 ≠ u2
  | _ => True
  end.
End Scan.

(** A listing in the order of the keys. *)
Definition listdir_sorted (st : store) : list string :=
  (map_to_list st).*1.

(** *** Room summaries *)

(** One element of the list [get_user_chatrooms] returns: the room
    without its messages, and their number. *)
Record summary := Summary {
  summary_id : string;
  summary_name : string;
  summary_creator : string;
  summary_members : list string;
  summary_created_at : Z;
  message_count : nat
}.

Definition summarize (chatroom_data : chatroom) : summary :=
  {| summary_id := room_id chatroom_data;
     summary_name := room_name chatroom_data;
     summary_creator := creator chatroom_data;
     summary_members := members chatroom_data;
     summary_created_at := created_at chatroom_data;
     message_count := length (messages chatroom_data) |}.

Section Summaries.
Variable listdir : store → list string.

(** The loop of [get_user_chatrooms] over the listed files. *)
Fixpoint collect_user_chatrooms (username : string) (st : store)
    (filenames : list string) : list summary :=
  match filenames with
  | [] => []
  | filename :: rest =>
      match st !! filename with
      | Some chatroom_data =>
          if Py.contains username (members chatroom_data)
          then summarize chatroom_data
                 :: collect_user_chatrooms username st rest
          else collect_user_chatrooms username st rest
      | None => collect_user_chatrooms username st rest
      end
  end.

Definition get_user_chatrooms (username : string) (st : store)
  : list summary :=
  collect_user_chatrooms username st (listdir st).
End Summaries.

(** The id a creating operation stores its room under. *)
Definition created_id (o : op) : option string :=
  match o with
  | CreateChatroom uuid _ _ _ _ => Some (generate_chatroom_id uuid)
  | CreateDirectMessage uuid _ _ _ => Some (generate_chatroom_id uuid)
  | _ => None
  end.

End ChatroomManager.

(** ** [src/node_controller.py] *)
Module NodeController.

(** One element of [self.responses[node_address]]. *)
Record entry := Entry {
  content : string;
  timestamp : Z
}.

(** The controller with the directory [_nodes] it works in: [files]
    maps a file name in that directory to the text [read()] returns for
    it, and a file that a command is written to outside the directory
    to its text by its absolute path; [responses] is
    [self.responses]. *)
Record controller := Controller {
  files : gmap string string;
  responses : gmap string (list entry)
}.

(** [__init__]: the directory may hold files already; no response is
    stored. *)
Definition init (files0 : gmap string string) : controller :=
  {| files := files0; responses := ∅ |}.

Definition _format_node_address (node_address : string) : string :=
  Py.replace ":" "_" node_address.

Definition in_file (node_address : string) : string :=
  _format_node_address node_address +:+ ".in".

Definition out_file (node_address : string) : string :=
  _format_node_address node_address +:+ ".out".

(** The tree of a controller made in the root: [_nodes], which
    [__init__] makes, with no directory inside.  No method makes or
    removes a directory. *)
Definition nodes_tree : Posix.tree := [[]; ["_nodes"]].

(** The file [os.path.join(self.nodes_dir, name)] leads to, by its key;
    [None] when the path leads to no file that can be opened or
    made. *)
Definition node_file (name : string) : option string :=
  Posix.key nodes_tree ["_nodes"] 0 (Posix.join "/_nodes" name).

(** [None] stands for the exception of [open(in_file, 'w')], with
    nothing written. *)
Definition _write_to_node (node_address message : string) (c : controller)
  : option bool * controller :=
  match node_file (in_file node_address) with
  | Some file =>
      (Some true,
       {| files := <[file := message]> (files c);
          responses := responses c |})
  | None => (None, c)
  end.

Definition _read_from_node (node_address : string) (c : controller)
  : option string * controller :=
  match files c !! out_file node_address with
  | None => (None, c)
  | Some text =>
      let content0 := Py.strip text in
      if negb (String.eqb content0 "") && negb (String.eqb content0 "done")
      then (Some content0,
            {| files := <[out_file node_address := ""]> (files c);
               responses := responses c |})
      else (None, c)
  end.

Definition submit_info (node_address : string) :=
  _write_to_node node_address "submit_info".

Definition peer_connect (node_address peer_address : string) :=
  _write_to_node node_address ("peer_connect:" +:+ peer_address).

Definition exit_node (node_address : string) :=
  _write_to_node node_address "exit".

Definition send_chat (node_address recipient message : string) :=
  _write_to_node node_address
    ("send_chat:" +:+ recipient +:+ ":" +:+ message).

(** [if response:] holds for a non-empty string. *)
Definition truthy (response : option string) : bool :=
  match response with
  | Some s => negb (String.eqb s "")
  | None => false
  end.

Definition record_response (node_address : string) (e : entry)
    (rs : gmap string (list entry)) : gmap string (list entry) :=
  let rs1 :=
    if bool_decide (is_Some (rs !! node_address)) then rs
    else <[node_address := []]> rs in
  let history := default [] (rs1 !! node_address) ++ [e] in
  let rs2 := <[node_address := history]> rs1 in
  if bool_decide (100 < length history)
  then <[node_address := Py.last_n 100 history]> rs2
  else rs2.

Definition get_response (node_address : string) (now : Z) (c : controller)
  : option string * controller :=
  let '(response, c1) := _read_from_node node_address c in
  if truthy response
  then (response,
        {| files := files c1;
           responses :=
             record_response node_address
               {| content := default "" response; timestamp := now |}
               (responses c1) |})
  else (response, c1).

Definition get_all_responses (node_address : string) (c : controller)
  : list entry :=
  default [] (responses c !! node_address).

Definition clear_responses (node_address : string) (c : controller)
  : controller :=
  if bool_decide (is_Some (responses c !! node_address))
  then {| files := files c;
          responses := <[node_address := []]> (responses c) |}
  else c.

(** *** Runs: calls of the controller interleaved with what the node
    process does to the files. *)
Inductive event :=
| NodeWrites (file text : string)
| NodeRemoves (file : string)
| WriteToNode (node_address message : string)
| GetResponse (node_address : string) (now : Z)
| ClearResponses (node_address : string).

#[global] Instance event_eq_dec : EqDecision event.
Proof. solve_decision. Defined.

Definition step (ev : event) (c : controller) : controller :=
  match ev with
  | NodeWrites f text =>
      {| files := <[f := text]> (files c); responses := responses c |}
  | NodeRemoves f =>
      {| files := delete f (files c); responses := responses c |}
  | WriteToNode a m => (_write_to_node a m c).2
  | GetResponse a now => (get_response a now c).2
  | ClearResponses a => clear_responses a c
  end.

Definition run (evs : list event) (c : controller) : controller :=
  foldl (λ s ev, step ev s) c evs.

(** What the polls of [node_address] returned during a run, each with
    the time of its poll, first one first. *)
Fixpoint observed (node_address : string) (evs : list event)
    (c : controller) : list entry :=
  match evs with
  | [] => []
  | ev :: evs' =>
      match ev with
      | GetResponse a now =>
          match (get_response a now c).1 with
          | Some r =>
              if bool_decide (a = node_address)
              then [{| content := r; timestamp := now |}]
              else []
          | None => []
          end
      | _ => []
      end ++ observed node_address evs' (step ev c)
  end.

(** The inverse of the address transform on ["host:port"] addresses. *)
Definition unformat_node_address (identifier : string) : string :=
  Py.replace "_" ":" identifier.

(** No character of [s] is [c]. *)
Fixpoint free_of (c : ascii) (s : string) : bool :=
  match s with
  | EmptyString => true
  | String d s' => negb (Ascii.eqb d c) && free_of c s'
  end.

End NodeController.

(** ** [src/user_management.py] *)
Module UserManager.

(** The record of one [<username>.json] file. *)
Record user := User {
  username : string;
  password_hash : string;
  ip : string;
  port : Z;
  created_at : Z;
  last_login : option Z
}.

(** The user files and [self.current_user].  [users] maps the key of a
    file to the record it holds: the file [<k>.json] of [users_dir] has
    the key [k], a user file that a name leads to outside [users_dir]
    has its absolute path as key. *)
Record manager := Manager {
  users : gmap string user;
  current_user : option user
}.

(** The tree of a manager made with the default [base_dir]: [var] and
    [var/users], which [ensure_dirs_exist] makes.  No method makes or
    removes a directory, so the tree is the same at every call. *)
Definition users_tree : Posix.tree := [[]; ["var"]; ["var"; "users"]].

(** The file [os.path.join(self.users_dir, f"{username}.json")] leads
    to, by its key; [None] when the path leads to no file that can be
    opened or made. *)
Definition user_file (name : string) : option string :=
  Posix.key users_tree ["var"; "users"] 5
    (Posix.join "var/users" (name +:+ ".json")).

(** What [open(user_file, 'r')] and [json.load] give. *)
Definition read_user (name : string) (m : manager) : option user :=
  match user_file name with
  | Some file => users m !! file
  | None => None
  end.

(** [os.path.exists(user_file)]: false also for a path that leads
    nowhere. *)
Definition user_exists (name : string) (m : manager) : bool :=
  bool_decide (is_Some (read_user name m)).

Section Hash.
(** [hashlib.sha256(s.encode()).hexdigest()]. *)
Variable sha256_hexdigest : string → string.

Definition hash_password (password : string) : string :=
  let salt := "netapp_secure_salt" in
  sha256_hexdigest (password +:+ salt).

(** The result is [None] when [open(user_file, 'w')] raises; nothing is
    written then. *)
Definition register_user (now : Z) (name password ip0 : string)
    (port0 : Z) (m : manager) : option (bool * string) * manager :=
  if user_exists name m then (Some (false, "Username already exists"), m)
  else
    let user_data :=
      {| username := name; password_hash := hash_password password;
         ip := ip0; port := port0; created_at := now;
         last_login := None |} in
    match user_file name with
    | None => (None, m)
    | Some file =>
        (Some (true, "User registered successfully"),
         {| users := <[file := user_data]> (users m);
            current_user := current_user m |})
    end.

(** After the test of [user_exists] the file is there, so the two
    [None] branches are never taken. *)
Definition authenticate (now : Z) (name password : string) (m : manager)
  : (bool * string) * manager :=
  if negb (user_exists name m) then ((false, "User does not exist"), m)
  else match user_file name, read_user name m with
  | Some file, Some user_data =>
      if String.eqb (password_hash user_data) (hash_password password)
      then
        let user_data' :=
          {| username := username user_data;
             password_hash := password_hash user_data;
             ip := ip user_data; port := port user_data;
             created_at := created_at user_data;
             last_login := Some now |} in
        ((true, "Authentication successful"),
         {| users := <[file := user_data']> (users m);
            current_user := Some user_data' |})
      else ((false, "Invalid password"), m)
  | _, _ => ((false, "User does not exist"), m)
  end.
End Hash.

Definition get_user_info (name : string) (m : manager) : option user :=
  if negb (user_exists name m) then None else read_user name m.

Definition update_user_address (name ip0 : string) (port0 : Z)
    (m : manager) : (bool * string) * manager :=
  if negb (user_exists name m) then ((false, "User does not exist"), m)
  else match user_file name, get_user_info name m with
  | Some file, Some user_data =>
      let user_data' :=
        {| username := username user_data;
           password_hash := password_hash user_data;
           ip := ip0; port := port0;
           created_at := created_at user_data;
           last_login := last_login user_data |} in
      ((true, "User address updated"),
       {| users := <[file := user_data']> (users m);
          current_user :=
            match current_user m with
            | Some current =>
                if String.eqb (username current) name
                then Some user_data' else Some current
            | None => None
            end |})
  | _, _ => ((false, "User does not exist"), m)
  end.

Definition get_current_user (m : manager) : option user := current_user m.

Definition logout (m : manager) : (bool * string) * manager :=
  ((true, "Logged out successfully"),
   {| users := users m; current_user := None |}).

(** One element of the list [get_all_users] returns: the record without
    its password hash and creation time. *)
Record listed_user := ListedUser {
  listed_username : string;
  listed_ip : string;
  listed_port : Z;
  listed_last_login : option Z
}.

Definition list_user (user_data : user) : listed_user :=
  {| listed_username := username user_data; listed_ip := ip user_data;
     listed_port := port user_data;
     listed_last_login := last_login user_data |}.

(** The key of a file of [users_dir]: a stem, not an absolute path. *)
Definition in_users_dir (file : string) : bool :=
  negb (Py.startswith "/" file).

Section Listing.
(** [os.listdir(self.users_dir)], by the keys of the files of the
    directory. *)
Variable listdir : gmap string user → list string.

Definition get_all_users (m : manager) : list listed_user :=
  omap (λ filename, list_user <$> users m !! filename) (listdir (users m)).
End Listing.

(** *** Sequences of calls *)
Inductive call :=
| RegisterUser (now : Z) (name password ip0 : string) (port0 : Z)
| Authenticate (now : Z) (name password : string)
| UpdateUserAddress (name ip0 : string) (port0 : Z)
| Logout.

Section Calls.
Variable sha256_hexdigest : string → string.

Definition apply_call (k : call) (m : manager) : manager :=
  match k with
  | RegisterUser now name password ip0 port0 =>
      (register_user sha256_hexdigest now name password ip0 port0 m).2
  | Authenticate now name password =>
      (authenticate sha256_hexdigest now name password m).2
  | UpdateUserAddress name ip0 port0 =>
      (update_user_address name ip0 port0 m).2
  | Logout => (logout m).2
  end.

Definition run_calls (ks : list call) (m : manager) : manager :=
  foldl (λ s k, apply_call k s) m ks.
End Calls.

(** The name of a call, if it has one. *)
Definition call_name (k : call) : option string :=
  match k with
  | RegisterUser _ name _ _ _ => Some name
  | Authenticate _ name _ => Some name
  | UpdateUserAddress name _ _ => Some name
  | Logout => None
  end.

(** A name that is the key of its own file, or leads to no file: not
    another way to reach the file of another name. *)
Definition own_file (name : string) : Prop :=
  user_file name = Some name ∨ user_file name = None.

(** [__init__] on an empty [users] directory. *)
Definition fresh : manager := {| users := ∅; current_user := None |}.

End UserManager.

(** * Properties *)

(** ** The built-ins on small inputs *)
Module PyExamples.

Example strip_line :
  Py.strip ("  send_chat ok " +:+ String "013" (String "010" ""))
  = "send_chat ok".
Proof. reflexivity. Qed.

Example strip_blank : Py.strip (String "009" " ") = "".
Proof. reflexivity. Qed.

Example sorted_names : Py.sorted ["bob"; "alice"] = ["alice"; "bob"].
Proof. reflexivity. Qed.

Example sorted_upper_first : Py.sorted ["bob"; "Zed"] = ["Zed"; "bob"].
Proof. reflexivity. Qed.

Example remove_first_only : Py.remove "bob" ["al"; "bob"; "cy"; "bob"]
  = ["al"; "cy"; "bob"].
Proof. reflexivity. Qed.

Example last_two : Py.last_n 2 [1; 2; 3] = [2; 3].
Proof. reflexivity. Qed.

Example last_of_short : Py.last_n 5 [1; 2; 3] = [1; 2; 3].
Proof. reflexivity. Qed.

Example slice_to_two : Py.slice_to 2 [1; 2; 3] = [1; 2].
Proof. reflexivity. Qed.

Example slice_to_minus_one : Py.slice_to (-1) [1; 2; 3] = [1; 2].
Proof. reflexivity. Qed.

(** Equal keys keep the order they came in. *)
Example sort_desc_stable :
  Py.sort_desc snd [("a", 1%Z); ("b", 3%Z); ("c", 1%Z); ("d", 3%Z)]
  = [("b", 3%Z); ("d", 3%Z); ("a", 1%Z); ("c", 1%Z)].
Proof. reflexivity. Qed.

End PyExamples.

(** ** Paths *)
Module PosixProofs.

Lemma append_length s1 s2 :
  String.length (s1 +:+ s2) = String.length s1 + String.length s2.
Proof. induction s1 as [|c s1 IH]; simpl; [done | by rewrite IH]. Qed.

Lemma append_cons c s1 s2 : String c s1 +:+ s2 = String c (s1 +:+ s2).
Proof. reflexivity. Qed.

Lemma append_append s1 s2 s3 : s1 +:+ (s2 +:+ s3) = (s1 +:+ s2) +:+ s3.
Proof.
  induction s1 as [|c s1 IH]; [done|]. by rewrite !append_cons, IH.
Qed.

Lemma has_char_append c s1 s2 :
  Posix.has_char c (s1 +:+ s2) = Posix.has_char c s1 || Posix.has_char c s2.
Proof.
  induction s1 as [|d s1 IH]; [done|].
  rewrite append_cons. simpl. by rewrite IH, orb_assoc.
Qed.

Lemma byte_length_append s1 s2 :
  Posix.byte_length (s1 +:+ s2)
  = Posix.byte_length s1 + Posix.byte_length s2.
Proof.
  induction s1 as [|d s1 IH]; [done|].
  rewrite append_cons. simpl. rewrite IH. lia.
Qed.

(** A name without ["/"] is one component. *)
Lemma split_plain name :
  Posix.has_char "/" name = false → Posix.split name = [name].
Proof.
  induction name as [|c name IH]; simpl; [done|].
  intros [Hc Hname]%orb_false_elim. rewrite Hc, (IH Hname). done.
Qed.

(** The last component of a path that ends in an extension ends in
    it. *)
Lemma split_extension p ext :
  Posix.has_char "/" ext = false →
  ∃ components g, Posix.split (p +:+ ext) = components ++ [g +:+ ext].
Proof.
  intros Hext. induction p as [|c p (components & g & IH)].
  - exists [], "". by apply split_plain.
  - rewrite append_cons. cbn [Posix.split]. rewrite IH.
    destruct (Ascii.eqb c "/").
    + by exists ("" :: components), g.
    + destruct components as [|h t]; simpl.
      * by exists [], (String c g).
      * by exists (String c h :: t), g.
Qed.

(** A lookup ends at the last component. *)
Lemma walk_last dirs components here f here' f' :
  Posix.walk dirs here (components ++ [f]) = Some (here', f') → f' = f.
Proof.
  revert here. induction components as [|c components IH]; intros here.
  - simpl. destruct (Posix.file_name dirs here f); [|done].
    by intros [= _ <-].
  - cbn [app Posix.walk].
    destruct (components ++ [f]) as [|d rest] eqn:E;
      [by destruct components|].
    cbv beta iota.
    destruct (String.eqb c "" || String.eqb c "."); [apply IH|].
    destruct (String.eqb c ".."); [apply IH|].
    case_bool_decide; [apply IH | done].
Qed.

Lemma substring_append s1 s2 :
  String.substring 0 (String.length s1) (s1 +:+ s2) = s1.
Proof.
  induction s1 as [|c s1 IH]; [by destruct s2|].
  rewrite append_cons. simpl. by rewrite IH.
Qed.

(** The stem of a name with an extension of [n] characters. *)
Lemma stem_append s ext :
  Posix.stem (String.length ext) (s +:+ ext) = s.
Proof.
  unfold Posix.stem. rewrite append_length.
  replace (String.length s + String.length ext - String.length ext)
    with (String.length s) by lia.
  apply substring_append.
Qed.

Lemma append_empty s : s +:+ "" = s.
Proof. induction s as [|c s IH]; [done | by rewrite append_cons, IH]. Qed.

Lemma stem_0 f : Posix.stem 0 f = f.
Proof.
  pose proof (stem_append f "") as H. by rewrite append_empty in H.
Qed.

Lemma absolute_ends here f : ∃ p, Posix.absolute here f = p +:+ f.
Proof.
  unfold Posix.absolute. induction here as [|c here (p & IH)]; simpl.
  - by exists "/".
  - rewrite IH. exists ("/" +:+ c +:+ p). by rewrite !append_append.
Qed.

(** A plain name of three characters or more is the name of a file in a
    directory that has no directory of that name. *)
Lemma file_name_plain dirs here f :
  Posix.plain f = true →
  3 ≤ String.length f →
  here ++ [f] ∉ dirs →
  Posix.file_name dirs here f = true.
Proof.
  unfold Posix.plain, Posix.file_name.
  intros [_ Hlen%bool_decide_eq_true_1]%andb_prop Hlong Hdir.
  rewrite (bool_decide_eq_true_2 _ Hlen), (bool_decide_eq_false_2 _ Hdir).
  destruct f as [|c1 [|c2 [|c3 f]]]; simpl in Hlong; try lia.
  cbn [String.eqb].
  by destruct (Ascii.eqb c1 "."), (Ascii.eqb c2 ".").
Qed.

End PosixProofs.

(** ** The chatroom store *)
Module ChatroomProofs.
Import ChatroomManager.

Lemma chatroom_exists_true chatroom_id (st : store) :
  chatroom_exists chatroom_id st = true ↔ is_Some (st !! chatroom_id).
Proof. unfold chatroom_exists. apply bool_decide_eq_true. Qed.

Lemma chatroom_exists_some chatroom_id (st : store) r :
  st !! chatroom_id = Some r → chatroom_exists chatroom_id st = true.
Proof. intros H. apply chatroom_exists_true. eauto. Qed.

Lemma chatroom_exists_none chatroom_id (st : store) :
  st !! chatroom_id = None → chatroom_exists chatroom_id st = false.
Proof.
  intros H. unfold chatroom_exists. apply bool_decide_eq_false.
  rewrite H. apply is_Some_None.
Qed.

Lemma get_chatroom_lookup chatroom_id (st : store) :
  get_chatroom chatroom_id st = st !! chatroom_id.
Proof.
  unfold get_chatroom. destruct (st !! chatroom_id) eqn:E.
  - by rewrite (chatroom_exists_some _ _ _ E).
  - by rewrite (chatroom_exists_none _ _ E).
Qed.

Lemma contains_true x l : Py.contains x l = true ↔ x ∈ l.
Proof. apply bool_decide_eq_true. Qed.

Lemma contains_false x l : Py.contains x l = false ↔ x ∉ l.
Proof. apply bool_decide_eq_false. Qed.

(** What [add_member] does, by the state of the directory. *)
Lemma add_member_missing chatroom_id username (st : store) :
  st !! chatroom_id = None →
  add_member chatroom_id username st
  = ((false, "Chatroom does not exist"), st).
Proof.
  intros H. unfold add_member. by rewrite (chatroom_exists_none _ _ H).
Qed.

Lemma add_member_already chatroom_id username (st : store) r :
  st !! chatroom_id = Some r → username ∈ members r →
  add_member chatroom_id username st
  = ((false, "User already a member"), st).
Proof.
  intros H Hin. unfold add_member.
  rewrite (chatroom_exists_some _ _ _ H), get_chatroom_lookup, H. simpl.
  by rewrite (proj2 (contains_true _ _) Hin).
Qed.

Lemma add_member_fresh chatroom_id username (st : store) r :
  st !! chatroom_id = Some r → username ∉ members r →
  add_member chatroom_id username st
  = ((true, "Member added successfully"),
     <[chatroom_id := set_members (members r ++ [username]) r]> st).
Proof.
  intros H Hin. unfold add_member.
  rewrite (chatroom_exists_some _ _ _ H), get_chatroom_lookup, H. simpl.
  by rewrite (proj2 (contains_false _ _) Hin).
Qed.

(** C8.  [add_member] succeeds exactly when the room exists and the user
    is not yet a member.  On success the stored room has the user
    appended at the end of its members and every other field as before,
    and no other room changes; on failure, which is reported as a missing
    room or as an existing member, the directory is unchanged. *)
Theorem add_member_outcome chatroom_id username (st : store) :
  ((add_member chatroom_id username st).1.1 = true ↔
     ∃ r, st !! chatroom_id = Some r ∧ username ∉ members r)
  ∧ (∀ r, st !! chatroom_id = Some r → username ∉ members r →
       ∃ r', (add_member chatroom_id username st).2 !! chatroom_id = Some r'
         ∧ members r' = members r ++ [username]
         ∧ room_id r' = room_id r ∧ room_name r' = room_name r
         ∧ creator r' = creator r ∧ created_at r' = created_at r
         ∧ messages r' = messages r
         ∧ ∀ other, other ≠ chatroom_id →
             (add_member chatroom_id username st).2 !! other = st !! other)
  ∧ ((add_member chatroom_id username st).1.1 = false →
       (add_member chatroom_id username st).2 = st
       ∧ ((add_member chatroom_id username st).1.2
            = "Chatroom does not exist" ∧ st !! chatroom_id = None
          ∨ (add_member chatroom_id username st).1.2
            = "User already a member"
            ∧ ∃ r, st !! chatroom_id = Some r ∧ username ∈ members r)).
Proof.
  destruct (st !! chatroom_id) as [r|] eqn:E.
  - destruct (decide (username ∈ members r)) as [Hin|Hin].
    + rewrite (add_member_already _ _ _ _ E Hin). simpl.
      split; [|split].
      * split; [done|]. intros (r' & ? & ?). naive_solver.
      * intros r' [= <-] ?. done.
      * intros _. split; [done|]. right. eauto.
    + rewrite (add_member_fresh _ _ _ _ E Hin). simpl.
      split; [|split].
      * split; [|done]. eauto.
      * intros r' [= <-] _. eexists. rewrite lookup_insert_eq.
        split; [done|]. repeat split; try done.
        intros other Hne. by rewrite lookup_insert_ne.
      * done.
  - rewrite (add_member_missing _ _ _ E). simpl.
    split; [|split].
    + split; [done|]. intros (r & ? & ?). done.
    + intros r ?. done.
    + intros _. split; [done|]. by left.
Qed.

(** *** Invariants of the directory *)

(** A property that every stored room has. *)
Definition every_room (P : chatroom → Prop) (st : store) : Prop :=
  map_Forall (λ _ r, P r) st.

Lemma every_room_lookup P (st : store) i r :
  every_room P st → st !! i = Some r → P r.
Proof. intros H E. exact (map_Forall_lookup_1 _ _ _ _ H E). Qed.

Lemma every_room_insert P (st : store) i r :
  P r → every_room P st → every_room P (<[i := r]> st).
Proof. intros. by apply map_Forall_insert_2. Qed.

Lemma every_room_empty P : every_room P ∅.
Proof. apply map_Forall_empty. Qed.

Lemma remove_keeps x y l : x ≠ y → y ∈ l → y ∈ Py.remove x l.
Proof.
  intros Hne. induction l as [|z l IH]; simpl; [done|].
  intros Hin. destruct (decide (x = z)) as [->|Hxz].
  - apply elem_of_cons in Hin as [->|]; done.
  - apply elem_of_cons in Hin as [->|Hin]; [left|right; auto].
Qed.

Lemma remove_sublist x l : Py.remove x l `sublist_of` l.
Proof.
  induction l as [|z l IH]; simpl; [done|].
  destruct (decide (x = z)); [by apply sublist_cons | by apply sublist_skip].
Qed.

Lemma sorted_pair a b :
  Py.sorted [a; b] = [a; b] ∨ Py.sorted [a; b] = [b; a].
Proof. simpl. destruct (String.leb a b); auto. Qed.

Lemma sorted_pair_NoDup a b : a ≠ b → NoDup (Py.sorted [a; b]).
Proof.
  intros Hne. destruct (sorted_pair a b) as [-> | ->];
    (apply NoDup_cons; split; [|apply NoDup_singleton]);
    rewrite list_elem_of_singleton; congruence.
Qed.

(** [create_chatroom] always stores a room that lists its creator. *)
Lemma created_members_creator c (ms : list string) :
  c ∈ (if Py.contains c ms then ms else ms ++ [c]).
Proof.
  destruct (Py.contains c ms) eqn:E.
  - by apply contains_true.
  - apply elem_of_app. right. by left.
Qed.

Lemma created_members_NoDup c (ms : list string) :
  NoDup ms → NoDup (if Py.contains c ms then ms else ms ++ [c]).
Proof.
  intros Hnd. destruct (Py.contains c ms) eqn:E; [done|].
  apply contains_false in E. apply NoDup_app. split; [done|].
  split; [|apply NoDup_singleton].
  intros x Hx Hx'. apply list_elem_of_singleton in Hx' as ->. done.
Qed.

Section Invariants.
Variable listdir : store → list string.

(** Each case of [apply_op] either leaves the directory alone or
    stores one room; [P] survives when it holds of every room stored. *)
Ltac store_cases :=
  repeat match goal with
    | |- context [negb (chatroom_exists ?i ?st)] =>
        destruct (chatroom_exists i st); simpl; [|assumption]
    | |- context [get_chatroom ?i ?st] =>
        rewrite get_chatroom_lookup;
        let E := fresh "E" in
        destruct (st !! i) eqn:E; simpl; [|assumption]
    | |- context [if ?b then _ else _] =>
        let E := fresh "E" in
        destruct b eqn:E; simpl; try assumption
    end.

Lemma apply_op_creator o st :
  every_room (λ r, creator r ∈ members r) st →
  every_room (λ r, creator r ∈ members r) (apply_op listdir o st).
Proof.
  intros Hst. destruct o; simpl.
  - apply every_room_insert; [|done]. apply created_members_creator.
  - unfold add_member. store_cases.
    apply every_room_insert; [|done]. simpl.
    apply elem_of_app. left. by apply (every_room_lookup _ _ _ _ Hst E).
  - unfold remove_member. store_cases.
    apply every_room_insert; [|done]. simpl.
    apply remove_keeps; [done|]. by apply (every_room_lookup _ _ _ _ Hst E).
  - unfold add_message.
    store_cases; (apply every_room_insert; [|done]); simpl;
      by apply (every_room_lookup _ _ _ _ Hst E).
  - unfold create_direct_message.
    destruct (find_direct_message _ _ _); simpl; [done|].
    apply every_room_insert; [|done]. apply created_members_creator.
Qed.

(** The room [i] is stored and has no member twice. *)
Definition room_distinct (i : string) (st : store) : Prop :=
  ∃ r, st !! i = Some r ∧ NoDup (members r).

Lemma room_distinct_insert i j r (st : store) :
  (j = i → NoDup (members r)) →
  room_distinct i st → room_distinct i (<[j := r]> st).
Proof.
  intros Hr (r0 & Hr0 & Hnd). destruct (decide (j = i)) as [->|Hne].
  - exists r. rewrite lookup_insert_eq. auto.
  - exists r0. by rewrite lookup_insert_ne.
Qed.

Lemma room_distinct_lookup i r (st : store) :
  room_distinct i st → st !! i = Some r → NoDup (members r).
Proof. intros (r0 & Hr0 & Hnd) Hr. congruence. Qed.

(** An operation keeps the room [i] distinct, unless it creates [i]
    anew from a list with a repetition. *)
Lemma apply_op_distinct i o st :
  (created_id o = Some i → distinct_members o) →
  room_distinct i st → room_distinct i (apply_op listdir o st).
Proof.
  intros Ho Hst. destruct o; simpl in *.
  - apply room_distinct_insert; [|done]. intros <-. simpl.
    apply created_members_NoDup. by apply Ho.
  - unfold add_member. store_cases.
    apply room_distinct_insert; [|done]. intros ->. simpl.
    apply NoDup_app. split; [by apply (room_distinct_lookup _ _ _ Hst E)|].
    split; [|apply NoDup_singleton].
    intros x Hx Hx'. apply list_elem_of_singleton in Hx' as ->.
    by apply contains_false in E0.
  - unfold remove_member. store_cases.
    apply room_distinct_insert; [|done]. intros ->. simpl.
    apply (sublist_NoDup _ (members c)); [|apply remove_sublist].
    by apply (room_distinct_lookup _ _ _ Hst E).
  - unfold add_message.
    store_cases; (apply room_distinct_insert; [|done]); intros ->; simpl;
      by apply (room_distinct_lookup _ _ _ Hst E).
  - unfold create_direct_message.
    destruct (find_direct_message _ _ _); simpl; [done|].
    apply room_distinct_insert; [|done]. intros <-. simpl.
    apply created_members_NoDup. apply sorted_pair_NoDup. by apply Ho.
Qed.

Lemma run_creator ops st :
  every_room (λ r, creator r ∈ members r) st →
  every_room (λ r, creator r ∈ members r) (run listdir ops st).
Proof.
  revert st. induction ops as [|o ops IH]; intros st Hst; [done|].
  simpl. apply IH. by apply apply_op_creator.
Qed.

Lemma run_distinct i ops st :
  Forall (λ o, created_id o = Some i → distinct_members o) ops →
  room_distinct i st → room_distinct i (run listdir ops st).
Proof.
  intros Hops. revert st.
  induction Hops as [|o ops Ho _ IH]; intros st Hst; [done|].
  simpl. apply IH. by apply apply_op_distinct.
Qed.
End Invariants.

(** C1.  In a directory reached from the empty one by any sequence of
    store operations, every room lists its creator among its members,
    and removing the creator from a room fails with the
    cannot-remove-the-creator outcome and changes nothing. *)
Theorem creator_always_member listdir ops chatroom_id r :
  run listdir ops ∅ !! chatroom_id = Some r →
  creator r ∈ members r
  ∧ remove_member chatroom_id (creator r) (run listdir ops ∅)
    = ((false, "Cannot remove the creator of the chatroom"),
       run listdir ops ∅).
Proof.
  intros Hr.
  assert (creator r ∈ members r) as Hin.
  { exact (every_room_lookup (λ r, creator r ∈ members r) _ _ _
             (run_creator listdir ops ∅ (every_room_empty _)) Hr). }
  split; [done|]. unfold remove_member.
  rewrite (chatroom_exists_some _ _ _ Hr), get_chatroom_lookup, Hr. simpl.
  rewrite (proj2 (contains_true _ _) Hin). simpl.
  by rewrite decide_True.
Qed.

Definition team : chatroom :=
  {| room_id := "3f2a9c1e"; room_name := "Team"; creator := "alice";
     created_at := 1700000000; members := ["alice"; "bob"];
     messages := [] |}.

Definition team_start : list op :=
  [CreateChatroom "3f2a9c1e-7b64-4c1d-9a57-0d2e8f6b1c33" 1700000000
     "Team" "alice" None;
   AddMember "3f2a9c1e" "bob";
   RemoveMember "3f2a9c1e" "alice"].

Lemma creator_always_member_witness :
  run listdir_sorted team_start ∅ !! "3f2a9c1e" = Some team
  ∧ creator team ∈ members team
  ∧ remove_member "3f2a9c1e" (creator team)
      (run listdir_sorted team_start ∅)
    = ((false, "Cannot remove the creator of the chatroom"),
       run listdir_sorted team_start ∅).
Proof.
  assert (run listdir_sorted team_start ∅ !! "3f2a9c1e" = Some team) as H
    by (vm_compute; reflexivity).
  split; [exact H|].
  exact (creator_always_member listdir_sorted team_start "3f2a9c1e" team H).
Defined.

(** C9, as stated, fails: [create_chatroom] stores the initial members
    as given, so a list that names a user twice is stored with the
    repetition. *)
Lemma create_chatroom_keeps_repeats :
  ∃ r,
    (create_chatroom "3f2a9c1e-7b64-4c1d-9a57-0d2e8f6b1c33" 1700000000
       "Team" "alice" (Some ["bob"; "bob"]) ∅).2 !! "3f2a9c1e" = Some r
    ∧ members r = ["bob"; "bob"; "alice"]
    ∧ ¬ NoDup (members r).
Proof.
  eexists. split; [vm_compute; reflexivity|]. split; [reflexivity|].
  simpl. intros Hnd. apply NoDup_cons in Hnd as [Hbob _].
  apply Hbob. left.
Qed.

(** C9, amended.  A room that [create_chatroom] makes from a list of
    distinct initial members, in any directory, has no member twice, and
    keeps this through every later operation on it or on another room,
    also when other rooms hold a member twice, as long as no room of the
    same id is made anew from a list with a repetition (for a direct
    message: from one user twice). *)
Theorem members_distinct listdir uuid now name creator0 members0 st ops :
  NoDup (default [] members0) →
  Forall (λ o, created_id o = Some (generate_chatroom_id uuid) →
               distinct_members o) ops →
  ∃ r,
    run listdir ops (create_chatroom uuid now name creator0 members0 st).2
      !! generate_chatroom_id uuid = Some r
    ∧ NoDup (members r).
Proof.
  intros Hnd Hops. apply (run_distinct listdir _ _ _ Hops). simpl.
  eexists. split; [apply lookup_insert_eq|]. simpl.
  by apply created_members_NoDup.
Qed.

Definition team_ops : list op :=
  [CreateChatroom "3f2a9c1e-7b64-4c1d-9a57-0d2e8f6b1c33" 1700000000
     "Team" "alice" (Some ["bob"; "carol"]);
   AddMember "3f2a9c1e" "dave";
   AddMember "3f2a9c1e" "bob";
   RemoveMember "3f2a9c1e" "carol";
   CreateDirectMessage "77e0c2aa-1f7e-4d7b-8f43-5a59c7b0e1d2" 1700000100
     "bob" "alice"].

Definition team_later : chatroom :=
  {| room_id := "3f2a9c1e"; room_name := "Team"; creator := "alice";
     created_at := 1700000000; members := ["bob"; "alice"; "dave"];
     messages := [] |}.

(** A directory with a room that holds ["bob"] twice. *)
Definition sloppy_start : store :=
  (create_chatroom "9d41b7c0-55aa-4e0b-b2f1-6c1f3a7e2d90" 1699999000
     "Pair" "erin" (Some ["bob"; "bob"]) ∅).2.

(** What follows the making of the team room: its members change, and
    two more rooms with a member twice are made. *)
Definition team_changes : list op :=
  [AddMember "3f2a9c1e" "dave";
   AddMember "3f2a9c1e" "bob";
   RemoveMember "3f2a9c1e" "carol";
   CreateChatroom "c07a55e1-2b3c-4d5e-8f90-a1b2c3d4e5f6" 1700000050
     "Twins" "frank" (Some ["gina"; "gina"]);
   CreateDirectMessage "77e0c2aa-1f7e-4d7b-8f43-5a59c7b0e1d2" 1700000100
     "bob" "bob"].

Lemma team_changes_distinct :
  Forall (λ o, created_id o
               = Some (generate_chatroom_id
                         "3f2a9c1e-7b64-4c1d-9a57-0d2e8f6b1c33") →
               distinct_members o) team_changes.
Proof.
  repeat apply Forall_cons_2; try apply Forall_nil_2;
    by intros [=].
Qed.

Lemma members_distinct_witness :
  NoDup (default [] (Some ["bob"; "carol"]))
  ∧ Forall (λ o, created_id o
                 = Some (generate_chatroom_id
                           "3f2a9c1e-7b64-4c1d-9a57-0d2e8f6b1c33") →
                 distinct_members o) team_changes
  ∧ members <$>
      run listdir_sorted team_changes
        (create_chatroom "3f2a9c1e-7b64-4c1d-9a57-0d2e8f6b1c33" 1700000000
           "Team" "alice" (Some ["bob"; "carol"]) sloppy_start).2
        !! "9d41b7c0" = Some ["bob"; "bob"; "erin"]
  ∧ ∃ r,
      run listdir_sorted team_changes
        (create_chatroom "3f2a9c1e-7b64-4c1d-9a57-0d2e8f6b1c33" 1700000000
           "Team" "alice" (Some ["bob"; "carol"]) sloppy_start).2
        !! generate_chatroom_id "3f2a9c1e-7b64-4c1d-9a57-0d2e8f6b1c33"
      = Some r
      ∧ NoDup (members r).
Proof.
  assert (NoDup (default [] (Some ["bob"; "carol"]))) as Hnd.
  { simpl. apply NoDup_cons. split; [|apply NoDup_singleton].
    rewrite list_elem_of_singleton. discriminate. }
  split; [exact Hnd|]. split; [exact team_changes_distinct|].
  split; [vm_compute; reflexivity|].
  exact (members_distinct listdir_sorted
           "3f2a9c1e-7b64-4c1d-9a57-0d2e8f6b1c33" 1700000000 "Team" "alice"
           (Some ["bob"; "carol"]) sloppy_start team_changes Hnd
           team_changes_distinct).
Defined.

(** *** The direct-message resolver *)

Lemma sorted_pair_swap a b : Py.sorted [a; b] = Py.sorted [b; a].
Proof.
  simpl. destruct (String.leb a b) eqn:Hab, (String.leb b a) eqn:Hba;
    try reflexivity.
  - by rewrite (String.leb_antisym _ _ Hab Hba).
  - destruct (String.leb_total a b); congruence.
Qed.

Lemma sorted_pair_length a b : length (Py.sorted [a; b]) = 2.
Proof. by destruct (sorted_pair a b) as [-> | ->]. Qed.

Lemma sorted_pair_first a b :
  Py.contains (Py.sorted [a; b] !!! 0) (Py.sorted [a; b]) = true.
Proof.
  apply contains_true.
  destruct (sorted_pair a b) as [-> | ->]; simpl; left.
Qed.

Lemma set_eq_refl l : Py.set_eq l l = true.
Proof. by apply bool_decide_eq_true. Qed.

Lemma startswith_append p s : Py.startswith p (p +:+ s) = true.
Proof.
  unfold Py.startswith. induction p as [|c p IH]; simpl.
  - by destruct s.
  - by destruct (ascii_dec c c).
Qed.

(** The room [create_direct_message] creates is a DM room of the pair. *)
Lemma created_is_direct_message uuid now a b (st : store) :
  ∃ r,
    create_chatroom uuid now
      ("DM_" +:+ Py.sorted [a; b] !!! 0 +:+ "_" +:+ Py.sorted [a; b] !!! 1)
      (Py.sorted [a; b] !!! 0) (Some (Py.sorted [a; b])) st
    = ((true, "Chatroom created successfully", generate_chatroom_id uuid),
       <[generate_chatroom_id uuid := r]> st)
    ∧ room_id r = generate_chatroom_id uuid
    ∧ is_direct_message (Py.sorted [a; b]) r = true.
Proof.
  eexists. split; [reflexivity|]. split; [reflexivity|].
  unfold is_direct_message.
  cbn [room_name members default id].
  rewrite sorted_pair_first, set_eq_refl, sorted_pair_length.
  by rewrite startswith_append.
Qed.

Lemma find_direct_message_none users (st : store) filenames :
  find_direct_message users st filenames = None →
  ∀ f r, f ∈ filenames → st !! f = Some r →
         is_direct_message users r = false.
Proof.
  induction filenames as [|g rest IH]; simpl; intros Hnone f r Hf Hr.
  - by apply elem_of_nil in Hf.
  - destruct (st !! g) as [rg|] eqn:Eg.
    + destruct (is_direct_message users rg) eqn:Edm; [done|].
      apply elem_of_cons in Hf as [->|Hf]; [congruence | eauto].
    + apply elem_of_cons in Hf as [->|Hf]; [congruence | eauto].
Qed.

Lemma find_direct_message_only users (st : store) filenames i :
  (∃ f r, f ∈ filenames ∧ st !! f = Some r
          ∧ is_direct_message users r = true) →
  (∀ f r, f ∈ filenames → st !! f = Some r →
          is_direct_message users r = true → room_id r = i) →
  find_direct_message users st filenames = Some i.
Proof.
  induction filenames as [|g rest IH]; simpl;
    intros (f & r & Hf & Hr & Hdm) Hall.
  - by apply elem_of_nil in Hf.
  - destruct (st !! g) as [rg|] eqn:Eg.
    + destruct (is_direct_message users rg) eqn:Edm.
      * f_equal. apply (Hall g rg); [left | done | done].
      * apply IH.
        -- apply elem_of_cons in Hf as [->|Hf]; [congruence | eauto].
        -- intros f' r' Hf'. apply Hall. by right.
    + apply IH.
      * apply elem_of_cons in Hf as [->|Hf]; [congruence | eauto].
      * intros f' r' Hf'. apply Hall. by right.
Qed.

Section Resolver.
Variable listdir : store → list string.
(** [os.listdir] lists exactly the files of the directory. *)
Hypothesis listdir_spec : ∀ (st : store) k,
  k ∈ listdir st ↔ is_Some (st !! k).

Lemma create_direct_message_swap uuid now a b st :
  create_direct_message listdir uuid now a b st
  = create_direct_message listdir uuid now b a st.
Proof.
  unfold create_direct_message. by rewrite (sorted_pair_swap a b).
Qed.

(** The two ways a resolution ends: the scan finds a room, or it
    finds none and a DM room of the pair is stored. *)
Lemma create_direct_message_cases uuid now a b st :
  (∃ found,
     find_direct_message (Py.sorted [a; b]) st (listdir st) = Some found
     ∧ create_direct_message listdir uuid now a b st
       = ((Some found, false), st))
  ∨ (find_direct_message (Py.sorted [a; b]) st (listdir st) = None
     ∧ ∃ r,
         create_direct_message listdir uuid now a b st
         = ((Some (generate_chatroom_id uuid), true),
            <[generate_chatroom_id uuid := r]> st)
         ∧ room_id r = generate_chatroom_id uuid
         ∧ is_direct_message (Py.sorted [a; b]) r = true).
Proof.
  unfold create_direct_message.
  destruct (find_direct_message (Py.sorted [a; b]) st (listdir st))
    as [found|] eqn:Efind.
  - left. eauto.
  - right. split; [done|].
    destruct (created_is_direct_message uuid now a b st)
      as (r & -> & Hid & Hdm).
    eauto.
Qed.

(** A second resolution of the pair finds the room of the first. *)
Lemma create_direct_message_again uuid1 now1 uuid2 now2 a b st :
  is_Some (create_direct_message listdir uuid1 now1 a b st).1.1
  ∧ create_direct_message listdir uuid2 now2 a b
      (create_direct_message listdir uuid1 now1 a b st).2
    = (((create_direct_message listdir uuid1 now1 a b st).1.1, false),
       (create_direct_message listdir uuid1 now1 a b st).2).
Proof.
  destruct (create_direct_message_cases uuid1 now1 a b st)
    as [(found & Efind & ->) | (Efind & r & -> & Hid & Hdm)];
    cbn [fst snd]; (split; [eauto|]); unfold create_direct_message.
  - by rewrite Efind.
  - rewrite (find_direct_message_only _ _ _ (generate_chatroom_id uuid1));
      [done | |].
    + exists (generate_chatroom_id uuid1), r. split; [|split; [|done]].
      * apply listdir_spec. rewrite lookup_insert_eq. eauto.
      * apply lookup_insert_eq.
    + intros f r' Hf Hr' Hdm'.
      destruct (decide (f = generate_chatroom_id uuid1)) as [->|Hne].
      * rewrite lookup_insert_eq in Hr'. congruence.
      * rewrite lookup_insert_ne in Hr' by done.
        assert (f ∈ listdir st) as Hf' by (apply listdir_spec; eauto).
        pose proof (find_direct_message_none _ _ _ Efind f r' Hf' Hr').
        congruence.
Qed.
End Resolver.

(** C6.  Resolving the direct-message room of two users twice in a row,
    with the arguments in either order the second time, returns a room
    id the first time and the same id the second time; the second call
    reports that nothing was created and leaves the directory as the
    first call left it.  From one directory, the two argument orders
    resolve alike. *)
Theorem create_direct_message_idempotent listdir
    uuid1 now1 uuid2 now2 user1 user2 (st : store) :
  (∀ (st : store) k, k ∈ listdir st ↔ is_Some (st !! k)) →
  let first := create_direct_message listdir uuid1 now1 user1 user2 st in
  is_Some first.1.1
  ∧ create_direct_message listdir uuid2 now2 user1 user2 first.2
    = ((first.1.1, false), first.2)
  ∧ create_direct_message listdir uuid2 now2 user2 user1 first.2
    = ((first.1.1, false), first.2)
  ∧ create_direct_message listdir uuid1 now1 user2 user1 st = first.
Proof.
  intros Hspec first.
  destruct (create_direct_message_again listdir Hspec
              uuid1 now1 uuid2 now2 user1 user2 st) as [Hsome Hagain].
  split; [done|]. split; [done|]. split.
  - by rewrite <- create_direct_message_swap.
  - by rewrite <- create_direct_message_swap.
Qed.

Lemma listdir_sorted_spec (st : store) k :
  k ∈ listdir_sorted st ↔ is_Some (st !! k).
Proof.
  unfold listdir_sorted. rewrite list_elem_of_fmap. split.
  - intros ([k' r] & -> & Hin). apply elem_of_map_to_list in Hin. eauto.
  - intros [r Hr]. exists (k, r). split; [done|].
    by apply elem_of_map_to_list.
Qed.

Lemma create_direct_message_idempotent_witness :
  let first :=
    create_direct_message listdir_sorted
      "77e0c2aa-1f7e-4d7b-8f43-5a59c7b0e1d2" 1700000100 "bob" "alice"
      (run listdir_sorted team_start ∅) in
  first.1 = (Some "77e0c2aa", true)
  ∧ create_direct_message listdir_sorted
      "0b1d5e90-33c4-4a6f-b1c2-9d8e7f6a5b4c" 1700000200 "alice" "bob"
      first.2
    = ((Some "77e0c2aa", false), first.2).
Proof.
  intros first. split; [vm_compute; reflexivity|].
  pose proof (create_direct_message_idempotent listdir_sorted
    "77e0c2aa-1f7e-4d7b-8f43-5a59c7b0e1d2" 1700000100
    "0b1d5e90-33c4-4a6f-b1c2-9d8e7f6a5b4c" 1700000200 "bob" "alice"
    (run listdir_sorted team_start ∅) listdir_sorted_spec) as H.
  cbv zeta in H. destruct H as (_ & _ & H & _). exact H.
Defined.

(** *** Listing messages *)

(** Newest first: no message is older than one that follows it. *)
Definition newest_first (l : list message) : Prop :=
  StronglySorted (λ m1 m2, (timestamp m2 ≤ timestamp m1)%Z) l.

Lemma insert_desc_perm (x : message) l :
  Py.insert_desc timestamp x l ≡ₚ x :: l.
Proof.
  induction l as [|y l IH]; simpl; [done|].
  destruct (timestamp y <=? timestamp x)%Z; [done|].
  rewrite IH. apply Permutation_swap.
Qed.

Lemma sort_desc_perm (l : list message) : Py.sort_desc timestamp l ≡ₚ l.
Proof.
  induction l as [|x l IH]; simpl; [done|].
  fold (Py.sort_desc timestamp l). by rewrite insert_desc_perm, IH.
Qed.

Lemma insert_desc_newest_first x l :
  newest_first l → newest_first (Py.insert_desc timestamp x l).
Proof.
  unfold newest_first. induction l as [|y l IH]; simpl; intros Hl.
  - by repeat constructor.
  - apply StronglySorted_inv in Hl as [Hl Hy].
    destruct (timestamp y <=? timestamp x)%Z eqn:E.
    + apply Z.leb_le in E. constructor; [by constructor|].
      constructor; [done|].
      eapply Forall_impl; [exact Hy|]. simpl. intros z Hz. lia.
    + apply Z.leb_gt in E. constructor; [auto|].
      rewrite insert_desc_perm. constructor; [lia | done].
Qed.

Lemma sort_desc_newest_first l : newest_first (Py.sort_desc timestamp l).
Proof.
  induction l as [|x l IH]; simpl; [constructor|].
  by apply insert_desc_newest_first.
Qed.

Lemma slice_to_take {A} (n : Z) (l : list A) :
  ∃ k, Py.slice_to n l = take k l ∧ ((0 ≤ n)%Z → k = Z.to_nat n).
Proof.
  unfold Py.slice_to. destruct (0 <=? n)%Z eqn:E.
  - eauto.
  - apply Z.leb_gt in E. eexists. split; [done|]. lia.
Qed.

Lemma take_newest_first k l : newest_first l → newest_first (take k l).
Proof.
  unfold newest_first. intros Hl. rewrite <- (take_drop k l) in Hl.
  by apply StronglySorted_app_1_l in Hl.
Qed.

(** [get_messages] on a room that exists: the messages kept by the
    filter, newest first, cut at the limit. *)
Lemma get_messages_existing chatroom_id limit before (st : store) r :
  st !! chatroom_id = Some r →
  get_messages chatroom_id limit before st
  = Py.slice_to limit
      (Py.sort_desc timestamp
         (match before with
          | Some b =>
              if (b =? 0)%Z then messages r
              else filter (λ m, (timestamp m < b)%Z) (messages r)
          | None => messages r
          end)).
Proof.
  intros Hr. unfold get_messages.
  by rewrite (chatroom_exists_some _ _ _ Hr), get_chatroom_lookup, Hr.
Qed.

(** X6.  The listing contract away from the two inputs that escape it (a
    negative limit, a zero [before]): at most [limit] messages of the
    room, newest first, all strictly older than [before] when it is
    given. *)
Lemma get_messages_listing chatroom_id limit before (st : store) r :
  st !! chatroom_id = Some r →
  (0 ≤ limit)%Z →
  before ≠ Some 0%Z →
  let out := get_messages chatroom_id limit before st in
  length out ≤ Z.to_nat limit
  ∧ newest_first out
  ∧ (∀ m, m ∈ out → m ∈ messages r)
  ∧ (∀ b, before = Some b → Forall (λ m, (timestamp m < b)%Z) out)
  ∧ (before = None →
     out = take (Z.to_nat limit) (Py.sort_desc timestamp (messages r))).
Proof.
  intros Hr Hlimit Hbefore out. subst out.
  rewrite (get_messages_existing _ _ _ _ _ Hr).
  destruct (slice_to_take limit
              (Py.sort_desc timestamp
                 (match before with
                  | Some b =>
                      if (b =? 0)%Z then messages r
                      else filter (λ m, (timestamp m < b)%Z) (messages r)
                  | None => messages r
                  end))) as (k & -> & Hk).
  specialize (Hk Hlimit). subst k.
  split; [rewrite length_take; lia|].
  split; [apply take_newest_first, sort_desc_newest_first|].
  split; [|split].
  - intros m Hm. apply subseteq_take in Hm. rewrite sort_desc_perm in Hm.
    destruct before as [b|]; [|done].
    destruct (b =? 0)%Z; [done|].
    by apply list_elem_of_filter in Hm as [_ ?].
  - intros b ->. apply Forall_take.
    destruct (b =? 0)%Z eqn:E; [apply Z.eqb_eq in E; congruence|].
    rewrite sort_desc_perm. apply Forall_forall.
    intros m Hm. by apply list_elem_of_filter in Hm as [? _].
  - by intros ->.
Qed.

(** A room with one message, sent at time [1700000050]. *)
Definition hello : message :=
  {| msg_id := "5c0de1a4-8a0b-4a55-9b0f-2f1f3f0e6d77"; sender := "alice";
     content := "hello"; msg_type := "text"; timestamp := 1700000050;
     file_info := None |}.

Definition team_talk : store :=
  run listdir_sorted
    (team_start ++
     [AddMessage "5c0de1a4-8a0b-4a55-9b0f-2f1f3f0e6d77" 1700000050
        "3f2a9c1e" "alice" "hello" "text" None]) ∅.

(** C5 at [before_timestamp = 0]: the test [if before_timestamp:] takes
    the zero for no bound, and a message that is not older than [0] is
    returned. *)
Lemma get_messages_before_zero :
  get_messages "3f2a9c1e" 50 (Some 0%Z) team_talk = [hello]
  ∧ ¬ (timestamp hello < 0)%Z.
Proof. split; [vm_compute; reflexivity | vm_compute; discriminate]. Qed.

(** With any other bound the same room lists nothing newer than it. *)
Lemma get_messages_before_one :
  get_messages "3f2a9c1e" 50 (Some 1%Z) team_talk = [].
Proof. vm_compute. reflexivity. Qed.

Lemma get_messages_listing_witness :
  team_talk !! "3f2a9c1e" = Some (set_messages [hello] team)
  ∧ get_messages "3f2a9c1e" 50 (Some 1700000060%Z) team_talk = [hello]
  ∧ Forall (λ m, (timestamp m < 1700000060)%Z)
      (get_messages "3f2a9c1e" 50 (Some 1700000060%Z) team_talk).
Proof.
  assert (team_talk !! "3f2a9c1e" = Some (set_messages [hello] team)) as H
    by (vm_compute; reflexivity).
  split; [exact H|]. split; [vm_compute; reflexivity|].
  destruct (get_messages_listing "3f2a9c1e" 50 (Some 1700000060%Z)
              team_talk _ H ltac:(lia) ltac:(discriminate))
    as (_ & _ & _ & Hold & _).
  exact (Hold _ eq_refl).
Defined.

End ChatroomProofs.

(** ** The node control channel and the response ledger *)
Module NodeProofs.
Import NodeController.

(** *** The address transform *)

Lemma replace_back c d s :
  free_of d s = true → Py.replace d c (Py.replace c d s) = s.
Proof.
  induction s as [|x s IH]; simpl; [done|].
  intros [Hx Hs]%andb_prop. rewrite (IH Hs). f_equal.
  apply negb_true_iff in Hx.
  destruct (Ascii.eqb x c) eqn:Exc.
  - rewrite Ascii.eqb_refl. by apply Ascii.eqb_eq in Exc.
  - by rewrite Hx.
Qed.

Lemma replace_free c d s : c ≠ d → free_of c (Py.replace c d s) = true.
Proof.
  intros Hcd. induction s as [|x s IH]; simpl; [done|].
  rewrite IH, andb_true_r. apply negb_true_iff.
  destruct (Ascii.eqb x c) eqn:Exc; [|done].
  apply Ascii.eqb_neq. congruence.
Qed.

(** C3, as stated, fails: an address with an underscore where another
    has a colon is sent to the same identifier. *)
Lemma format_node_address_collision :
  "peer_1:7091" ≠ "peer:1:7091"
  ∧ _format_node_address "peer_1:7091" = _format_node_address "peer:1:7091".
Proof. split; [discriminate | reflexivity]. Qed.

(** C3, amended.  On addresses without an underscore (["host:port"] with
    a numeric or dotted host) the transform can be undone by putting the
    colons back, so it sends no two of them to one identifier; and its
    identifier never holds a colon. *)
Theorem format_node_address_reversible node_address :
  free_of "_" node_address = true →
  unformat_node_address (_format_node_address node_address) = node_address
  ∧ free_of ":" (_format_node_address node_address) = true
  ∧ ∀ other, free_of "_" other = true →
      _format_node_address node_address = _format_node_address other →
      node_address = other.
Proof.
  intros Hfree. unfold unformat_node_address, _format_node_address.
  split; [by apply replace_back|]. split; [by apply replace_free|].
  intros other Hother Heq.
  rewrite <- (replace_back ":" "_" node_address Hfree).
  rewrite <- (replace_back ":" "_" other Hother).
  by rewrite Heq.
Qed.

Lemma format_node_address_reversible_witness :
  free_of "_" "10.0.0.5:9000" = true
  ∧ _format_node_address "10.0.0.5:9000" = "10.0.0.5_9000"
  ∧ unformat_node_address (_format_node_address "10.0.0.5:9000")
    = "10.0.0.5:9000".
Proof.
  split; [reflexivity|]. split; [reflexivity|].
  exact (proj1 (format_node_address_reversible "10.0.0.5:9000" eq_refl)).
Defined.

(** *** Polling *)

(** The three ways a read ends. *)
Lemma read_from_node_cases node_address c :
  (files c !! out_file node_address = None
   ∧ _read_from_node node_address c = (None, c))
  ∨ (∃ text, files c !! out_file node_address = Some text
       ∧ (Py.strip text = "" ∨ Py.strip text = "done")
       ∧ _read_from_node node_address c = (None, c))
  ∨ (∃ text, files c !! out_file node_address = Some text
       ∧ Py.strip text ≠ "" ∧ Py.strip text ≠ "done"
       ∧ _read_from_node node_address c
         = (Some (Py.strip text),
            {| files := <[out_file node_address := ""]> (files c);
               responses := responses c |})).
Proof.
  unfold _read_from_node.
  destruct (files c !! out_file node_address) as [text|]; [|by left].
  right. simpl.
  destruct (String.eqb_spec (Py.strip text) "") as [E1|E1]; simpl.
  - left. eauto.
  - destruct (String.eqb_spec (Py.strip text) "done") as [E2|E2]; simpl.
    + left. eauto.
    + right. eauto 10.
Qed.

(** [get_response] by the same cases: nothing happens, or the stripped
    text is returned, the slot emptied and the entry recorded. *)
Lemma get_response_cases node_address now c :
  ((files c !! out_file node_address = None
    ∨ ∃ text, files c !! out_file node_address = Some text
        ∧ (Py.strip text = "" ∨ Py.strip text = "done"))
   ∧ get_response node_address now c = (None, c))
  ∨ (∃ text, files c !! out_file node_address = Some text
       ∧ Py.strip text ≠ "" ∧ Py.strip text ≠ "done"
       ∧ get_response node_address now c
         = (Some (Py.strip text),
            {| files := <[out_file node_address := ""]> (files c);
               responses :=
                 record_response node_address
                   {| content := Py.strip text; timestamp := now |}
                   (responses c) |})).
Proof.
  unfold get_response.
  destruct (read_from_node_cases node_address c)
    as [[E ->] | [(text & E & Hs & ->) | (text & E & H1 & H2 & ->)]].
  - left. eauto.
  - left. eauto.
  - right. exists text. simpl.
    destruct (String.eqb_spec (Py.strip text) ""); [done|]. simpl. eauto.
Qed.

(** *** The ledger *)

Lemma last_n_short {A} n (l : list A) : length l ≤ n → Py.last_n n l = l.
Proof.
  intros H. unfold Py.last_n. by replace (length l - n) with 0 by lia.
Qed.

Lemma last_n_length {A} n (l : list A) :
  length (Py.last_n n l) = min n (length l).
Proof. unfold Py.last_n. rewrite length_drop. lia. Qed.

Lemma last_n_subseteq {A} n (l : list A) x : x ∈ Py.last_n n l → x ∈ l.
Proof. unfold Py.last_n. apply subseteq_drop. Qed.

(** Cutting to the last [n] early does not change the last [n] later. *)
Lemma last_n_app_last_n {A} n (l r : list A) :
  Py.last_n n (Py.last_n n l ++ r) = Py.last_n n (l ++ r).
Proof.
  destruct (decide (length l ≤ n)) as [Hle|Hgt].
  - by rewrite (last_n_short n l Hle).
  - unfold Py.last_n at 1 3. rewrite !length_app, last_n_length.
    unfold Py.last_n.
    replace (n `min` length l + length r - n) with (length r) by lia.
    replace (length l + length r - n) with ((length l - n) + length r)
      by lia.
    rewrite <- drop_drop. by rewrite (drop_app_le l r) by lia.
Qed.

(** The history of every address after one entry is recorded. *)
Lemma record_response_lookup a e rs a' :
  default [] (record_response a e rs !! a')
  = if decide (a = a')
    then Py.last_n 100 (default [] (rs !! a) ++ [e])
    else default [] (rs !! a').
Proof.
  unfold record_response.
  set (rs1 := if bool_decide (is_Some (rs !! a)) then rs
              else <[a := []]> rs).
  assert (default [] (rs1 !! a) = default [] (rs !! a)) as Ha.
  { subst rs1. case_bool_decide as Hs; [done|].
    rewrite lookup_insert_eq.
    destruct (rs !! a) eqn:E; [|done]. destruct Hs. eauto. }
  assert (∀ k, a ≠ k → rs1 !! k = rs !! k) as Hk.
  { intros k Hne. subst rs1. case_bool_decide; [done|].
    by rewrite lookup_insert_ne. }
  rewrite Ha. destruct (decide (a = a')) as [<-|Hne].
  - case_bool_decide as Hlen.
    + by rewrite lookup_insert_eq.
    + rewrite lookup_insert_eq. simpl. symmetry. apply last_n_short. lia.
  - case_bool_decide; rewrite !lookup_insert_ne by done;
      by rewrite Hk.
Qed.

(** C2.  A poll never returns the sentinel ["done"]; when the result
    slot is absent, empty or holds ["done"] it returns nothing and
    leaves the controller as it was: no ledger entry is added and the
    slot is not written.  No run of the controller puts an entry with
    content ["done"] in the ledger. *)
Theorem get_response_never_done node_address now c :
  (get_response node_address now c).1 ≠ Some "done"
  ∧ (files c !! out_file node_address = None
     ∨ files c !! out_file node_address = Some ""
     ∨ files c !! out_file node_address = Some "done" →
     get_response node_address now c = (None, c))
  ∧ (∀ a e,
       e ∈ get_all_responses a (get_response node_address now c).2 →
       e ∈ get_all_responses a c ∨ content e ≠ "done").
Proof.
  destruct (get_response_cases node_address now c)
    as [[Hslot Hget] | (text & E & H1 & H2 & Hget)]; rewrite Hget; simpl.
  - split; [done|]. split; [done|]. auto.
  - split; [congruence|]. split.
    + intros [Hn | [He | Hd]]; rewrite E in *; try done.
      * injection He as ->. by vm_compute in H1.
      * injection Hd as ->. by vm_compute in H2.
    + intros a e He. unfold get_all_responses in *. simpl in He.
      rewrite record_response_lookup in He.
      destruct (decide (node_address = a)) as [<-|]; [|by left].
      apply last_n_subseteq, elem_of_app in He as [He|He]; [by left|].
      apply list_elem_of_singleton in He as ->. by right.
Qed.

(** Writing a command touches no stored response. *)
Lemma write_to_node_history b a m c :
  get_all_responses b (_write_to_node a m c).2 = get_all_responses b c.
Proof. unfold _write_to_node. by destruct (node_file (in_file a)). Qed.

(** A ledger of real results: no entry is empty and none is the
    sentinel. *)
Definition real_results (c : controller) : Prop :=
  ∀ a e, e ∈ get_all_responses a c →
         content e ≠ "" ∧ content e ≠ "done".

Lemma step_real_results ev c : real_results c → real_results (step ev c).
Proof.
  intros Hc a e.
  destruct ev; [exact (Hc a e) | exact (Hc a e) | | simpl | simpl].
  - cbn [step]. rewrite write_to_node_history. exact (Hc a e).
  - destruct (get_response_cases node_address now c)
      as [[_ ->] | (text & _ & H1 & H2 & ->)]; [exact (Hc a e)|].
    unfold get_all_responses. simpl. rewrite record_response_lookup.
    destruct (decide (node_address = a)) as [<-|]; [|exact (Hc a e)].
    intros [He|He]%last_n_subseteq%elem_of_app;
      [exact (Hc node_address e He)|].
    by apply list_elem_of_singleton in He as ->.
  - unfold clear_responses. case_bool_decide; [|exact (Hc a e)].
    unfold get_all_responses. simpl.
    destruct (decide (node_address = a)) as [<-|].
    + rewrite lookup_insert_eq. simpl. by intros ?%elem_of_nil.
    + rewrite lookup_insert_ne by done. exact (Hc a e).
Qed.

(** Along a run from a fresh controller the ledger holds real results
    only. *)
Lemma ledger_never_done files0 evs : real_results (run evs (init files0)).
Proof.
  assert (real_results (init files0)) as H0.
  { intros a e. unfold get_all_responses, init. simpl.
    rewrite lookup_empty. simpl. by intros ?%elem_of_nil. }
  revert H0. generalize (init files0).
  induction evs as [|ev evs IH]; intros c Hc; [done|].
  simpl. by apply IH, step_real_results.
Qed.

(** A result as a node writes it: a line, with its line end. *)
Definition connected_line : string := "connected" +:+ String "010" "".

Definition polled : controller :=
  init {[ "10.0.0.5_9000.out" := connected_line ]}.

(** C7, as stated, fails: the slot holds a non-empty text that is not
    the sentinel, and the poll returns another text, the slot's content
    without its line end. *)
Lemma get_response_strips :
  files polled !! out_file "10.0.0.5:9000" = Some connected_line
  ∧ connected_line ≠ "" ∧ connected_line ≠ "done"
  ∧ (get_response "10.0.0.5:9000" 1700000000 polled).1 = Some "connected"
  ∧ (get_response "10.0.0.5:9000" 1700000000 polled).1
    ≠ Some connected_line.
Proof.
  split; [vm_compute; reflexivity|].
  split; [discriminate|]. split; [discriminate|].
  split; [vm_compute; reflexivity | vm_compute; discriminate].
Qed.

(** A slot of white space only is not empty and is not the sentinel;
    the poll returns nothing and does not write it. *)
Lemma get_response_blank_slot :
  get_response "10.0.0.5:9000" 1700000000
    (init {[ "10.0.0.5_9000.out" := String "010" "" ]})
  = (None, init {[ "10.0.0.5_9000.out" := String "010" "" ]}).
Proof. vm_compute. reflexivity. Qed.

(** C7, amended.  When the text of the result slot, with the white
    space at its ends stripped, is neither empty nor the sentinel, a
    poll returns the stripped text and empties the slot in the same
    call; a second poll right after it, with no write to the slot in
    between, returns nothing. *)
Theorem get_response_hands_off_once node_address now now' c text :
  files c !! out_file node_address = Some text →
  Py.strip text ≠ "" →
  Py.strip text ≠ "done" →
  (get_response node_address now c).1 = Some (Py.strip text)
  ∧ files (get_response node_address now c).2 !! out_file node_address
    = Some ""
  ∧ (get_response node_address now'
       (get_response node_address now c).2).1 = None.
Proof.
  intros E H1 H2.
  destruct (get_response_cases node_address now c)
    as [[[Hn | (t & Ht & Hs)] _] | (t & Ht & _ & _ & ->)].
  - congruence.
  - rewrite E in Ht. injection Ht as <-. by destruct Hs.
  - rewrite E in Ht. injection Ht as <-. cbn [fst snd files].
    split; [done|]. split; [apply lookup_insert_eq|].
    match goal with |- (get_response _ _ ?c1).1 = _ =>
      destruct (get_response_cases node_address now' c1)
        as [[_ ->] | (t & Ht & Hne & _)]
    end; [done|].
    cbn [files] in Ht. rewrite lookup_insert_eq in Ht.
    injection Ht as <-. by destruct Hne.
Qed.

Lemma get_response_hands_off_once_witness :
  files polled !! out_file "10.0.0.5:9000" = Some connected_line
  ∧ Py.strip connected_line = "connected"
  ∧ (get_response "10.0.0.5:9000" 1700000000 polled).1 = Some "connected"
  ∧ (get_response "10.0.0.5:9000" 1700000001
       (get_response "10.0.0.5:9000" 1700000000 polled).2).1 = None.
Proof.
  assert (files polled !! out_file "10.0.0.5:9000" = Some connected_line)
    as E by (vm_compute; reflexivity).
  assert (Py.strip connected_line ≠ "") as H1 by (vm_compute; discriminate).
  assert (Py.strip connected_line ≠ "done") as H2
    by (vm_compute; discriminate).
  split; [exact E|]. split; [vm_compute; reflexivity|].
  destruct (get_response_hands_off_once "10.0.0.5:9000"
              1700000000%Z 1700000001%Z polled connected_line E H1 H2)
    as (Hfirst & _ & Hsecond).
  split; [exact Hfirst | exact Hsecond].
Defined.

(** *** The ledger bound *)

(** One step of a run: the history of [a] is cut to the last hundred
    of what it was followed by what the step observed for [a]. *)
Lemma step_history a ev c :
  ev ≠ ClearResponses a →
  length (get_all_responses a c) ≤ 100 →
  get_all_responses a (step ev c)
  = Py.last_n 100 (get_all_responses a c ++ observed a [ev] c).
Proof.
  intros Hev Hlen.
  assert (get_all_responses a c
          = Py.last_n 100 (get_all_responses a c ++ [])) as Hsame
    by (by rewrite app_nil_r, last_n_short).
  destruct ev; [exact Hsame | exact Hsame | | simpl | simpl].
  - cbn [step observed]. rewrite write_to_node_history. exact Hsame.
  - destruct (get_response_cases node_address now c)
      as [[_ ->] | (text & _ & _ & _ & ->)]; [exact Hsame|].
    cbn [fst snd]. unfold get_all_responses at 1. cbn [responses].
    rewrite record_response_lookup.
    destruct (decide (node_address = a)) as [->|Hne].
    + by rewrite bool_decide_eq_true_2, app_nil_r.
    + by rewrite bool_decide_eq_false_2.
  - unfold clear_responses. case_bool_decide; [|exact Hsame].
    unfold get_all_responses at 1. cbn [responses].
    rewrite lookup_insert_ne by congruence. exact Hsame.
Qed.

Lemma run_history a evs c :
  ClearResponses a ∉ evs →
  length (get_all_responses a c) ≤ 100 →
  get_all_responses a (run evs c)
  = Py.last_n 100 (get_all_responses a c ++ observed a evs c).
Proof.
  revert c. induction evs as [|ev evs IH]; intros c Hevs Hlen.
  - simpl. by rewrite app_nil_r, last_n_short.
  - apply not_elem_of_cons in Hevs as [Hev Hevs].
    pose proof (step_history a ev c (not_eq_sym Hev) Hlen) as Hstep.
    cbn [run foldl]. fold (run evs (step ev c)).
    rewrite IH; [|done|].
    + rewrite Hstep, last_n_app_last_n.
      cbn [observed]. rewrite !app_nil_r in *. by rewrite <- app_assoc.
    + rewrite Hstep, last_n_length. lia.
Qed.

(** C4.  In a run of a fresh controller in which the history of an
    address is never cleared, once more than a hundred results have been
    recorded for the address its history is the last hundred of them, in
    the order they were observed, oldest first; the others, the oldest,
    are gone. *)
Theorem ledger_keeps_last_100 files0 evs node_address :
  ClearResponses node_address ∉ evs →
  100 < length (observed node_address evs (init files0)) →
  get_all_responses node_address (run evs (init files0))
  = drop (length (observed node_address evs (init files0)) - 100)
      (observed node_address evs (init files0))
  ∧ length (get_all_responses node_address (run evs (init files0))) = 100.
Proof.
  intros Hevs Hlong.
  assert (get_all_responses node_address (init files0) = []) as Hinit
    by (unfold get_all_responses, init; cbn [responses];
        by rewrite lookup_empty).
  rewrite (run_history node_address evs (init files0) Hevs)
    by (rewrite Hinit; simpl; lia).
  rewrite Hinit. cbn [app]. split; [done|].
  rewrite last_n_length. lia.
Qed.

(** A node that answers ["pong"] to each of 101 polls, at times 0..100. *)
Definition busy_run : list event :=
  flat_map
    (λ i, [NodeWrites "10.0.0.5_9000.out" "pong";
           GetResponse "10.0.0.5:9000" (Z.of_nat i)])
    (seq 0 101).

Lemma ledger_keeps_last_100_witness :
  length (observed "10.0.0.5:9000" busy_run (init ∅)) = 101
  ∧ get_all_responses "10.0.0.5:9000" (run busy_run (init ∅))
    = (λ i, {| content := "pong"; timestamp := Z.of_nat i |}) <$> seq 1 100.
Proof.
  assert (ClearResponses "10.0.0.5:9000" ∉ busy_run) as Hevs
    by (apply (bool_decide_unpack _); vm_compute; exact I).
  assert (length (observed "10.0.0.5:9000" busy_run (init ∅)) = 101)
    as Hlen by (vm_compute; reflexivity).
  split; [exact Hlen|].
  destruct (ledger_keeps_last_100 ∅ busy_run "10.0.0.5:9000" Hevs
              ltac:(rewrite Hlen; lia)) as [-> _].
  vm_compute. reflexivity.
Defined.

End NodeProofs.

(** ** The user store *)
Module UserProofs.
Import UserManager PosixProofs.

Lemma user_exists_true name m :
  user_exists name m = true ↔ is_Some (read_user name m).
Proof. unfold user_exists. apply bool_decide_eq_true. Qed.

Lemma user_exists_false name m :
  user_exists name m = false ↔ read_user name m = None.
Proof.
  unfold user_exists. rewrite bool_decide_eq_false.
  by rewrite eq_None_not_Some.
Qed.

Lemma user_exists_some name m u :
  read_user name m = Some u → user_exists name m = true.
Proof. intros H. apply user_exists_true. eauto. Qed.

(** A record is read through the file of its name. *)
Lemma read_user_some name m u :
  read_user name m = Some u ↔
  ∃ file, user_file name = Some file ∧ users m !! file = Some u.
Proof.
  unfold read_user. destruct (user_file name) as [file|].
  - split; [eauto|]. by intros (f & [= <-] & ?).
  - split; [done|]. by intros (f & ? & _).
Qed.

(** A name without ["/"] and NUL, of at most 250 bytes, is the name of
    its own user file in [users_dir]. *)
Lemma user_file_plain name :
  Posix.plain (name +:+ ".json") = true → user_file name = Some name.
Proof.
  set (file := name +:+ ".json"). intros Hplain.
  assert (3 ≤ String.length file) as Hlong
    by (unfold file; rewrite append_length; simpl; lia).
  assert (Posix.file_name users_tree ["var"; "users"] file = true)
    as Hfile.
  { apply file_name_plain; [done..|]. unfold users_tree. intros Hin.
    apply elem_of_cons in Hin as [?|Hin]; [done|].
    apply elem_of_cons in Hin as [?|Hin]; [done|].
    apply elem_of_cons in Hin as [?|Hin]; [done|].
    by apply elem_of_nil in Hin. }
  unfold Posix.plain in Hplain.
  apply andb_prop in Hplain as [[Hslash Hnul]%andb_prop Hlen].
  apply bool_decide_eq_true_1 in Hlen.
  apply negb_true_iff in Hslash, Hnul.
  unfold user_file, Posix.key, Posix.join. fold file.
  assert (Py.startswith "/" file = false) as ->.
  { destruct file as [|c file']; [done|]. simpl in Hslash.
    apply orb_false_elim in Hslash as [Hc _].
    unfold Py.startswith. cbn [String.prefix].
    by destruct (ascii_dec "/" c) as [<-|]. }
  unfold Posix.locate.
  assert (Posix.has_char "000" ("var/users" +:+ "/" +:+ file) = false)
    as -> by (by rewrite !has_char_append, Hnul).
  rewrite bool_decide_eq_false_2
    by (rewrite !byte_length_append; simpl; lia).
  assert (Posix.split ("var/users" +:+ "/" +:+ file)
          = ["var"; "users"; file])
    as -> by (rewrite <- (split_plain file Hslash); reflexivity).
  assert (Posix.walk users_tree [] ["var"; "users"; file]
          = Posix.walk users_tree ["var"; "users"] [file]) as ->
    by reflexivity.
  cbn [Posix.walk]. rewrite Hfile.
  rewrite bool_decide_eq_true_2 by done.
  f_equal. exact (stem_append name ".json").
Qed.

(** A stand-in for the digest, enough to run the model. *)
Definition toy_digest (s : string) : string := "sha256:" +:+ s.

(** C10, as stated, fails: the name ["a/b"] is not registered, and its
    user file [var/users/a/b.json] lies in a directory that does not
    exist, so [open] raises and [register_user] does not succeed. *)
Lemma register_user_unopenable :
  user_exists "a/b" fresh = false
  ∧ register_user toy_digest 1700000000 "a/b" "s3cret" "10.0.0.5" 9000 fresh
    = (None, fresh).
Proof. split; vm_compute; reflexivity. Qed.

(** C10, amended.  For a name that is not registered and whose user file
    can be made, registering succeeds, and authenticating right after
    with the same password succeeds: the stored hash is the hash of the
    password, whatever the hash function computes, and the user becomes
    the current user. *)
Theorem register_then_authenticate sha256_hexdigest
    now now' name password ip0 port0 m :
  user_exists name m = false →
  is_Some (user_file name) →
  (register_user sha256_hexdigest now name password ip0 port0 m).1
  = Some (true, "User registered successfully")
  ∧ (authenticate sha256_hexdigest now' name password
       (register_user sha256_hexdigest now name password ip0 port0 m).2).1
    = (true, "Authentication successful")
  ∧ username <$>
      current_user
        (authenticate sha256_hexdigest now' name password
           (register_user sha256_hexdigest now name password ip0 port0 m).2).2
    = Some name.
Proof.
  intros Hnew [file Hfile]. unfold register_user. rewrite Hnew, Hfile.
  cbn [fst snd]. split; [done|]. unfold authenticate, user_exists, read_user.
  rewrite Hfile. cbn [users]. rewrite lookup_insert_eq.
  rewrite bool_decide_eq_true_2 by eauto.
  cbn [negb password_hash]. by rewrite String.eqb_refl.
Qed.

Lemma register_then_authenticate_witness :
  user_exists "alice" fresh = false
  ∧ user_file "alice" = Some "alice"
  ∧ (authenticate toy_digest 1700000009 "alice" "s3cret"
       (register_user toy_digest 1700000000 "alice" "s3cret"
          "10.0.0.5" 9000 fresh).2).1
    = (true, "Authentication successful").
Proof.
  split; [reflexivity|]. split; [reflexivity|].
  exact (proj1 (proj2 (register_then_authenticate toy_digest
           1700000000%Z 1700000009%Z "alice" "s3cret" "10.0.0.5" 9000%Z
           fresh eq_refl (ex_intro _ "alice" eq_refl)))).
Defined.

(** A name of 300 characters is refused by the system as well. *)
Lemma register_user_long_name :
  (register_user toy_digest 1700000000
     (string_of_list_ascii (replicate 300 "a"%char)) "s3cret"
     "10.0.0.5" 9000 fresh).1 = None.
Proof. vm_compute. reflexivity. Qed.

(** Another name of the file of a registered user is taken too, and the
    user can authenticate under it. *)
Lemma register_user_other_name :
  (register_user toy_digest 1700000005 "./alice" "guess" "10.6.6.6" 1
     (register_user toy_digest 1700000000 "alice" "s3cret"
        "10.0.0.5" 9000 fresh).2).1
  = Some (false, "Username already exists")
  ∧ (authenticate toy_digest 1700000009 "./alice" "s3cret"
       (register_user toy_digest 1700000000 "alice" "s3cret"
          "10.0.0.5" 9000 fresh).2).1
    = (true, "Authentication successful").
Proof. split; vm_compute; reflexivity. Qed.

(** A wrong password is refused after the same registration when the
    digests differ. *)
Lemma authenticate_wrong_password :
  (authenticate toy_digest 1700000009 "alice" "guess"
     (register_user toy_digest 1700000000 "alice" "s3cret"
        "10.0.0.5" 9000 fresh).2).1
  = (false, "Invalid password").
Proof. vm_compute. reflexivity. Qed.

End UserProofs.

(** * Further properties of the sources *)

(** ** The chatroom store *)
Module ChatroomExtras.
Import ChatroomManager ChatroomProofs.

(** *** Removing a member *)

Lemma remove_length x l : x ∈ l → S (length (Py.remove x l)) = length l.
Proof.
  induction l as [|y l IH]; simpl.
  - by intros ?%elem_of_nil.
  - intros Hin. destruct (decide (x = y)) as [->|Hne]; [done|].
    apply elem_of_cons in Hin as [->|Hin]; [done|]. simpl. by rewrite IH.
Qed.

Lemma remove_gone x l : NoDup l → x ∉ Py.remove x l.
Proof.
  induction l as [|y l IH]; simpl; intros Hnd.
  - apply not_elem_of_nil.
  - apply NoDup_cons in Hnd as [Hy Hnd].
    destruct (decide (x = y)) as [->|Hne]; [done|].
    apply not_elem_of_cons. split; [done | auto].
Qed.

Lemma remove_member_removes chatroom_id username (st : store) r :
  st !! chatroom_id = Some r →
  username ∈ members r →
  username ≠ creator r →
  remove_member chatroom_id username st
  = ((true, "Member removed successfully"),
     <[chatroom_id := set_members (Py.remove username (members r)) r]> st).
Proof.
  intros Hr Hin Hne. unfold remove_member.
  rewrite (chatroom_exists_some _ _ _ Hr), get_chatroom_lookup, Hr. simpl.
  rewrite (proj2 (contains_true _ _) Hin). simpl.
  by rewrite decide_False.
Qed.

(** X1.  [remove_member] succeeds exactly for a member of an existing room
    who is not its creator.  It then drops the first occurrence of the
    user from the members (one entry less; none left when the list had
    no repetition) and keeps every other field and every other room.
    Each of the three failures leaves the directory as it was. *)
Theorem remove_member_outcome chatroom_id username (st : store) :
  ((remove_member chatroom_id username st).1.1 = true ↔
     ∃ r, st !! chatroom_id = Some r ∧ username ∈ members r
          ∧ username ≠ creator r)
  ∧ (∀ r, st !! chatroom_id = Some r → username ∈ members r →
       username ≠ creator r →
       ∃ r', (remove_member chatroom_id username st).2 !! chatroom_id
             = Some r'
         ∧ members r' = Py.remove username (members r)
         ∧ S (length (members r')) = length (members r)
         ∧ (NoDup (members r) → username ∉ members r')
         ∧ room_id r' = room_id r ∧ room_name r' = room_name r
         ∧ creator r' = creator r ∧ created_at r' = created_at r
         ∧ messages r' = messages r
         ∧ ∀ other, other ≠ chatroom_id →
             (remove_member chatroom_id username st).2 !! other
             = st !! other)
  ∧ ((remove_member chatroom_id username st).1.1 = false →
       (remove_member chatroom_id username st).2 = st
       ∧ ((remove_member chatroom_id username st).1.2
            = "Chatroom does not exist" ∧ st !! chatroom_id = None
          ∨ (remove_member chatroom_id username st).1.2
            = "User is not a member"
            ∧ (∃ r, st !! chatroom_id = Some r ∧ username ∉ members r)
          ∨ (remove_member chatroom_id username st).1.2
            = "Cannot remove the creator of the chatroom"
            ∧ (∃ r, st !! chatroom_id = Some r ∧ username ∈ members r
                    ∧ username = creator r))).
Proof.
  destruct (st !! chatroom_id) as [r|] eqn:E.
  - destruct (decide (username ∈ members r)) as [Hin|Hin].
    + destruct (decide (username = creator r)) as [Hc|Hc].
      * assert (remove_member chatroom_id username st
                = ((false, "Cannot remove the creator of the chatroom"), st))
          as ->.
        { unfold remove_member.
          rewrite (chatroom_exists_some _ _ _ E), get_chatroom_lookup, E.
          simpl. rewrite (proj2 (contains_true _ _) Hin). simpl.
          by rewrite decide_True. }
        simpl. split; [|split].
        -- split; [done|]. intros (r' & [= <-] & _ & ?). done.
        -- intros r' [= <-] _ ?. done.
        -- intros _. split; [done|]. right. right. eauto.
      * rewrite (remove_member_removes _ _ _ _ E Hin Hc). simpl.
        split; [|split].
        -- split; [|done]. eauto.
        -- intros r' [= <-] _ _. eexists. rewrite lookup_insert_eq.
           split; [done|]. simpl. split; [done|].
           split; [by apply remove_length|].
           split; [apply remove_gone|].
           repeat split; try done.
           intros other Hne. by rewrite lookup_insert_ne.
        -- done.
    + assert (remove_member chatroom_id username st
              = ((false, "User is not a member"), st)) as ->.
      { unfold remove_member.
        rewrite (chatroom_exists_some _ _ _ E), get_chatroom_lookup, E.
        simpl. by rewrite (proj2 (contains_false _ _) Hin). }
      simpl. split; [|split].
      * split; [done|]. intros (r' & [= <-] & ? & _). done.
      * intros r' [= <-] ? _. done.
      * intros _. split; [done|]. right. left. eauto.
  - assert (remove_member chatroom_id username st
            = ((false, "Chatroom does not exist"), st)) as ->.
    { unfold remove_member. by rewrite (chatroom_exists_none _ _ E). }
    simpl. split; [|split].
    + split; [done|]. intros (r & ? & _). done.
    + intros r ?. done.
    + intros _. split; [done|]. by left.
Qed.

(** Where the members repeat a user, one removal leaves the user a
    member. *)
Lemma remove_member_leaves_repeat :
  ∃ r,
    (remove_member "3f2a9c1e" "bob"
       (create_chatroom "3f2a9c1e-7b64-4c1d-9a57-0d2e8f6b1c33" 1700000000
          "Team" "alice" (Some ["bob"; "bob"]) ∅).2).2 !! "3f2a9c1e"
    = Some r
    ∧ members r = ["bob"; "alice"].
Proof. eexists. split; [vm_compute; reflexivity | reflexivity]. Qed.

(** *** Sending a message *)

(** The message [add_message] builds. *)
Definition new_message (uuid : string) (now : Z)
    (sender0 content0 message_type : string)
    (file_info0 : option (list (string * string))) : message :=
  {| msg_id := uuid; sender := sender0; content := content0;
     msg_type := message_type; timestamp := now;
     file_info :=
       if bool_decide (message_type = "file") && truthy_info file_info0
       then file_info0 else None |}.

Lemma add_message_missing uuid now chatroom_id sender0 content0
    message_type file_info0 (st : store) :
  st !! chatroom_id = None →
  add_message uuid now chatroom_id sender0 content0 message_type
    file_info0 st
  = ((false, "Chatroom does not exist", None), st).
Proof.
  intros E. unfold add_message. by rewrite (chatroom_exists_none _ _ E).
Qed.

Lemma add_message_stranger uuid now chatroom_id sender0 content0
    message_type file_info0 (st : store) r :
  st !! chatroom_id = Some r → sender0 ∉ members r →
  add_message uuid now chatroom_id sender0 content0 message_type
    file_info0 st
  = ((false, "Only members can send messages", None), st).
Proof.
  intros E Hin. unfold add_message.
  rewrite (chatroom_exists_some _ _ _ E), get_chatroom_lookup, E. simpl.
  by rewrite (proj2 (contains_false _ _) Hin).
Qed.

Lemma add_message_sent uuid now chatroom_id sender0 content0
    message_type file_info0 (st : store) r :
  st !! chatroom_id = Some r → sender0 ∈ members r →
  add_message uuid now chatroom_id sender0 content0 message_type
    file_info0 st
  = ((true, "Message added successfully",
      Some (new_message uuid now sender0 content0 message_type file_info0)),
     <[chatroom_id :=
         set_messages
           (messages r
              ++ [new_message uuid now sender0 content0 message_type
                    file_info0]) r]> st).
Proof.
  intros E Hin. unfold add_message.
  rewrite (chatroom_exists_some _ _ _ E), get_chatroom_lookup, E. simpl.
  by rewrite (proj2 (contains_true _ _) Hin).
Qed.

(** X2.  [add_message] fails, writing nothing, for a missing room and for a
    sender who is not a member of the room.  Otherwise it returns the
    message it built, with the given id, sender, content, type and time,
    and stores the room with that message appended to the end of its
    messages and everything else as it was.  The message carries the
    file descriptor only for type ["file"] and a non-empty descriptor. *)
Theorem add_message_outcome uuid now chatroom_id sender0 content0
    message_type file_info0 (st : store) :
  (st !! chatroom_id = None →
   add_message uuid now chatroom_id sender0 content0 message_type
     file_info0 st
   = ((false, "Chatroom does not exist", None), st))
  ∧ (∀ r, st !! chatroom_id = Some r → sender0 ∉ members r →
       add_message uuid now chatroom_id sender0 content0 message_type
         file_info0 st
       = ((false, "Only members can send messages", None), st))
  ∧ (∀ r, st !! chatroom_id = Some r → sender0 ∈ members r →
       ∃ m,
         add_message uuid now chatroom_id sender0 content0 message_type
           file_info0 st
         = ((true, "Message added successfully", Some m),
            <[chatroom_id := set_messages (messages r ++ [m]) r]> st)
         ∧ msg_id m = uuid ∧ sender m = sender0 ∧ content m = content0
         ∧ msg_type m = message_type ∧ timestamp m = now
         ∧ (file_info m ≠ None →
            message_type = "file" ∧ file_info m = file_info0)
         ∧ (message_type = "file" → truthy_info file_info0 = true →
            file_info m = file_info0)).
Proof.
  split; [apply add_message_missing|].
  split; [apply add_message_stranger|].
  intros r E Hin. eexists.
  split; [by apply add_message_sent|]. simpl.
  repeat split; try done.
  - case_bool_decide; [done|]. simpl in *. done.
  - destruct (bool_decide (message_type = "file") && truthy_info file_info0);
      done.
  - intros -> ->. by rewrite bool_decide_eq_true_2.
Qed.

(** *** What the operations keep of a room *)

(** [r'] is [r] later on: the same room, with possibly other members
    and more messages after the ones it had. *)
Definition grown_from (r r' : chatroom) : Prop :=
  room_id r' = room_id r ∧ room_name r' = room_name r
  ∧ creator r' = creator r ∧ created_at r' = created_at r
  ∧ messages r `prefix_of` messages r'.

Lemma grown_from_refl r : grown_from r r.
Proof. by repeat split. Qed.

Lemma grown_from_trans r1 r2 r3 :
  grown_from r1 r2 → grown_from r2 r3 → grown_from r1 r3.
Proof.
  intros (? & ? & ? & ? & ?) (? & ? & ? & ? & ?).
  repeat split; try congruence. by etrans.
Qed.

Section Kept.
Variable listdir : store → list string.

Lemma apply_op_grown o (st : store) i r :
  created_id o ≠ Some i →
  st !! i = Some r →
  ∃ r', apply_op listdir o st !! i = Some r' ∧ grown_from r r'.
Proof.
  intros Ho Hr. destruct o; simpl in *.
  - exists r. split; [|apply grown_from_refl].
    rewrite lookup_insert_ne; [done | congruence].
  - unfold add_member.
    destruct (st !! chatroom_id) as [r1|] eqn:E.
    + rewrite (chatroom_exists_some _ _ _ E), get_chatroom_lookup, E. simpl.
      destruct (Py.contains username (members r1)); simpl;
        [exists r; split; [done | apply grown_from_refl]|].
      destruct (decide (chatroom_id = i)) as [->|Hne].
      * rewrite lookup_insert_eq. eexists. split; [done|].
        rewrite Hr in E. injection E as <-. by repeat split.
      * rewrite lookup_insert_ne by done.
        exists r. split; [done | apply grown_from_refl].
    + rewrite (chatroom_exists_none _ _ E). simpl.
      exists r. split; [done | apply grown_from_refl].
  - unfold remove_member.
    destruct (st !! chatroom_id) as [r1|] eqn:E.
    + rewrite (chatroom_exists_some _ _ _ E), get_chatroom_lookup, E. simpl.
      destruct (negb (Py.contains username (members r1))); simpl;
        [exists r; split; [done | apply grown_from_refl]|].
      destruct (decide (username = creator r1)); simpl;
        [exists r; split; [done | apply grown_from_refl]|].
      destruct (decide (chatroom_id = i)) as [->|Hne].
      * rewrite lookup_insert_eq. eexists. split; [done|].
        rewrite Hr in E. injection E as <-. by repeat split.
      * rewrite lookup_insert_ne by done.
        exists r. split; [done | apply grown_from_refl].
    + rewrite (chatroom_exists_none _ _ E). simpl.
      exists r. split; [done | apply grown_from_refl].
  - unfold add_message.
    destruct (st !! chatroom_id) as [r1|] eqn:E.
    + rewrite (chatroom_exists_some _ _ _ E), get_chatroom_lookup, E. simpl.
      destruct (negb (Py.contains sender0 (members r1))); simpl;
        [exists r; split; [done | apply grown_from_refl]|].
      destruct (decide (chatroom_id = i)) as [->|Hne].
      * rewrite lookup_insert_eq. eexists. split; [done|].
        rewrite Hr in E. injection E as <-.
        repeat split; try done. simpl. by apply prefix_app_r.
      * rewrite lookup_insert_ne by done.
        exists r. split; [done | apply grown_from_refl].
    + rewrite (chatroom_exists_none _ _ E). simpl.
      exists r. split; [done | apply grown_from_refl].
  - unfold create_direct_message.
    destruct (find_direct_message _ _ _); simpl;
      [exists r; split; [done | apply grown_from_refl]|].
    exists r. split; [|apply grown_from_refl].
    rewrite lookup_insert_ne; [done | congruence].
Qed.

Lemma apply_op_keyed o (st : store) :
  map_Forall (λ i r, room_id r = i) st →
  map_Forall (λ i r, room_id r = i) (apply_op listdir o st).
Proof.
  intros Hst. destruct o; simpl.
  - by apply map_Forall_insert_2.
  - unfold add_member.
    destruct (st !! chatroom_id) as [r1|] eqn:E.
    + rewrite (chatroom_exists_some _ _ _ E), get_chatroom_lookup, E. simpl.
      destruct (Py.contains username (members r1)); simpl; [done|].
      apply map_Forall_insert_2; [|done]. exact (Hst _ _ E).
    + by rewrite (chatroom_exists_none _ _ E).
  - unfold remove_member.
    destruct (st !! chatroom_id) as [r1|] eqn:E.
    + rewrite (chatroom_exists_some _ _ _ E), get_chatroom_lookup, E. simpl.
      destruct (negb (Py.contains username (members r1))); simpl; [done|].
      destruct (decide (username = creator r1)); simpl; [done|].
      apply map_Forall_insert_2; [|done]. exact (Hst _ _ E).
    + by rewrite (chatroom_exists_none _ _ E).
  - unfold add_message.
    destruct (st !! chatroom_id) as [r1|] eqn:E.
    + rewrite (chatroom_exists_some _ _ _ E), get_chatroom_lookup, E. simpl.
      destruct (negb (Py.contains sender0 (members r1))); simpl; [done|].
      apply map_Forall_insert_2; [|done]. exact (Hst _ _ E).
    + by rewrite (chatroom_exists_none _ _ E).
  - unfold create_direct_message.
    destruct (find_direct_message _ _ _); simpl; [done|].
    by apply map_Forall_insert_2.
Qed.

Lemma run_keyed ops (st : store) :
  map_Forall (λ i r, room_id r = i) st →
  map_Forall (λ i r, room_id r = i) (run listdir ops st).
Proof.
  revert st. induction ops as [|o ops IH]; intros st Hst; [done|].
  simpl. apply IH. by apply apply_op_keyed.
Qed.
End Kept.

(** X3.  No operation deletes a room or rewrites its past: as long as no
    creation draws the id of a stored room again, the room stays stored
    with its id, name, creator and creation time, and the messages it
    had are the first messages of the list it has afterwards. *)
Theorem room_history_kept listdir ops (st : store) chatroom_id r :
  Forall (λ o, created_id o ≠ Some chatroom_id) ops →
  st !! chatroom_id = Some r →
  ∃ r', run listdir ops st !! chatroom_id = Some r'
    ∧ room_id r' = room_id r ∧ room_name r' = room_name r
    ∧ creator r' = creator r ∧ created_at r' = created_at r
    ∧ messages r `prefix_of` messages r'.
Proof.
  intros Hops. revert st r.
  induction Hops as [|o ops Ho _ IH]; intros st r Hr.
  - exists r. split; [done|]. apply grown_from_refl.
  - destruct (apply_op_grown listdir o st chatroom_id r Ho Hr)
      as (r1 & Hr1 & Hg1).
    destruct (IH _ _ Hr1) as (r2 & Hr2 & Hg2).
    exists r2. split; [done|].
    exact (grown_from_trans _ _ _ Hg1 Hg2).
Qed.

Definition talk_ops : list op :=
  [AddMessage "9d3b7c55-0a4e-4a38-8d4b-6b0a5a3e2f10" 1700000070
     "3f2a9c1e" "bob" "hi" "text" None;
   RemoveMember "3f2a9c1e" "bob";
   CreateDirectMessage "77e0c2aa-1f7e-4d7b-8f43-5a59c7b0e1d2" 1700000100
     "bob" "alice"].

Lemma talk_ops_elsewhere :
  Forall (λ o, created_id o ≠ Some "3f2a9c1e") talk_ops.
Proof. repeat constructor; simpl; discriminate. Qed.

Lemma room_history_kept_witness :
  team_talk !! "3f2a9c1e" = Some (set_messages [hello] team)
  ∧ ∃ r', run listdir_sorted talk_ops team_talk !! "3f2a9c1e" = Some r'
      ∧ [hello] `prefix_of` messages r'.
Proof.
  assert (team_talk !! "3f2a9c1e" = Some (set_messages [hello] team)) as H
    by (vm_compute; reflexivity).
  split; [exact H|].
  destruct (room_history_kept listdir_sorted talk_ops team_talk
              "3f2a9c1e" _ talk_ops_elsewhere H)
    as (r' & Hr' & _ & _ & _ & _ & Hpre).
  exists r'. split; [exact Hr' | exact Hpre].
Defined.

(** X5.  A creation that draws the id of a stored room replaces the room:
    its members and messages are gone. *)
Lemma create_chatroom_overwrites uuid now name creator0 members0
    (st : store) :
  (create_chatroom uuid now name creator0 members0 st).1
  = (true, "Chatroom created successfully", generate_chatroom_id uuid)
  ∧ ∃ r,
      get_chatroom (generate_chatroom_id uuid)
        (create_chatroom uuid now name creator0 members0 st).2 = Some r
      ∧ room_id r = generate_chatroom_id uuid
      ∧ room_name r = name ∧ creator r = creator0 ∧ created_at r = now
      ∧ messages r = []
      ∧ (creator0 ∈ default [] members0 →
         members r = default [] members0)
      ∧ (creator0 ∉ default [] members0 →
         members r = default [] members0 ++ [creator0]).
Proof.
  split; [done|]. eexists. rewrite get_chatroom_lookup.
  unfold create_chatroom. cbn [snd]. rewrite lookup_insert_eq.
  split; [done|]. cbn [room_id room_name creator created_at messages members].
  repeat split.
  - intros Hin. by rewrite (proj2 (contains_true _ _) Hin).
  - intros Hin. by rewrite (proj2 (contains_false _ _) Hin).
Qed.

(** X4.  In a directory reached from the empty one every room file holds
    the room of its name: the record in the file [<k>.json] has the
    ["id"] [k]. *)
Theorem room_stored_under_its_id listdir ops k r :
  run listdir ops ∅ !! k = Some r →
  room_id r = k.
Proof.
  intros Hr. exact (run_keyed listdir ops ∅ (map_Forall_empty _) _ _ Hr).
Qed.

Lemma room_stored_under_its_id_witness :
  run listdir_sorted team_ops ∅ !! "3f2a9c1e" = Some team_later
  ∧ room_id team_later = "3f2a9c1e".
Proof.
  assert (run listdir_sorted team_ops ∅ !! "3f2a9c1e" = Some team_later)
    as H by (vm_compute; reflexivity).
  split; [exact H|].
  exact (room_stored_under_its_id listdir_sorted team_ops "3f2a9c1e"
           team_later H).
Defined.

(** *** Listing messages at the edges *)

(** X7.  With a negative limit the slice [messages[:limit]] counts from
    the end: the listing of an existing room is the whole newest-first
    list without its last [-limit] messages, so it is not bounded by the
    limit. *)
Theorem get_messages_negative_limit chatroom_id limit (st : store) r :
  st !! chatroom_id = Some r →
  (limit < 0)%Z →
  get_messages chatroom_id limit None st
  = take (length (messages r) - Z.to_nat (- limit))
      (Py.sort_desc timestamp (messages r))
  ∧ length (get_messages chatroom_id limit None st)
    = length (messages r) - Z.to_nat (- limit).
Proof.
  intros Hr Hneg. rewrite (get_messages_existing _ _ _ _ _ Hr).
  unfold Py.slice_to.
  replace (0 <=? limit)%Z with false by (symmetry; apply Z.leb_gt; lia).
  assert (length (Py.sort_desc timestamp (messages r))
          = length (messages r)) as Hlen
    by (by rewrite sort_desc_perm).
  rewrite Hlen. split; [done|]. rewrite length_take, Hlen. lia.
Qed.

Definition two_talk : store :=
  run listdir_sorted
    [AddMessage "9d3b7c55-0a4e-4a38-8d4b-6b0a5a3e2f10" 1700000070
       "3f2a9c1e" "bob" "hi" "text" None] team_talk.

Lemma get_messages_negative_limit_witness :
  (∃ r, two_talk !! "3f2a9c1e" = Some r ∧ length (messages r) = 2)
  ∧ content <$> get_messages "3f2a9c1e" (-1) None two_talk = ["hi"].
Proof.
  split; [eexists; split; vm_compute; reflexivity|].
  destruct (get_messages_negative_limit "3f2a9c1e" (-1) two_talk
              (set_messages
                 [hello;
                  {| msg_id := "9d3b7c55-0a4e-4a38-8d4b-6b0a5a3e2f10";
                     sender := "bob"; content := "hi"; msg_type := "text";
                     timestamp := 1700000070; file_info := None |}] team)
              ltac:(vm_compute; reflexivity) ltac:(lia)) as [-> _].
  vm_compute. reflexivity.
Defined.

(** For a room that does not exist the listing is empty. *)
Lemma get_messages_missing chatroom_id limit before (st : store) :
  st !! chatroom_id = None →
  get_messages chatroom_id limit before st = [].
Proof.
  intros E. unfold get_messages. by rewrite (chatroom_exists_none _ _ E).
Qed.

(** *** Room summaries *)

Lemma collect_user_chatrooms_elem username (st : store) filenames s :
  s ∈ collect_user_chatrooms username st filenames ↔
  ∃ f r, f ∈ filenames ∧ st !! f = Some r ∧ username ∈ members r
         ∧ s = summarize r.
Proof.
  induction filenames as [|g rest IH]; simpl.
  - split; [by intros ?%elem_of_nil|]. intros (f & r & Hf & _).
    by apply elem_of_nil in Hf.
  - destruct (st !! g) as [rg|] eqn:Eg.
    + destruct (Py.contains username (members rg)) eqn:Ec.
      * rewrite elem_of_cons, IH. apply contains_true in Ec. split.
        -- intros [-> | (f & r & Hf & Hr & Hin & ->)].
           ++ exists g, rg. split; [left|]. done.
           ++ exists f, r. split; [by right|]. done.
        -- intros (f & r & Hf & Hr & Hin & ->).
           apply elem_of_cons in Hf as [->|Hf].
           ++ left. congruence.
           ++ right. eauto 10.
      * rewrite IH. apply contains_false in Ec. split.
        -- intros (f & r & Hf & Hr & Hin & ->).
           exists f, r. split; [by right|]. done.
        -- intros (f & r & Hf & Hr & Hin & ->).
           apply elem_of_cons in Hf as [->|Hf]; [congruence|]. eauto 10.
    + rewrite IH. split.
      * intros (f & r & Hf & Hr & Hin & ->).
        exists f, r. split; [by right|]. done.
      * intros (f & r & Hf & Hr & Hin & ->).
        apply elem_of_cons in Hf as [->|Hf]; [congruence|]. eauto 10.
Qed.

(** X8.  [get_user_chatrooms] lists the summary of a room exactly when the
    room is stored and has the user among its members; a summary copies
    the room's id, name, creator, members and creation time and counts
    its messages. *)
Theorem get_user_chatrooms_lists listdir username (st : store) s :
  (∀ (st : store) k, k ∈ listdir st ↔ is_Some (st !! k)) →
  s ∈ get_user_chatrooms listdir username st ↔
  ∃ chatroom_id r, st !! chatroom_id = Some r ∧ username ∈ members r
    ∧ summary_id s = room_id r ∧ summary_name s = room_name r
    ∧ summary_creator s = creator r ∧ summary_members s = members r
    ∧ summary_created_at s = created_at r
    ∧ message_count s = length (messages r).
Proof.
  intros Hspec. unfold get_user_chatrooms.
  rewrite collect_user_chatrooms_elem. split.
  - intros (f & r & _ & Hr & Hin & ->). exists f, r. by repeat split.
  - intros (i & r & Hr & Hin & H1 & H2 & H3 & H4 & H5 & H6).
    exists i, r. split; [apply Hspec; eauto|].
    split; [done|]. split; [done|].
    destruct s. simpl in *. unfold summarize. congruence.
Qed.

Definition team_summary : summary :=
  {| summary_id := "3f2a9c1e"; summary_name := "Team";
     summary_creator := "alice"; summary_members := ["alice"; "bob"];
     summary_created_at := 1700000000; message_count := 2 |}.

Lemma get_user_chatrooms_lists_witness :
  (∀ (st : store) k, k ∈ listdir_sorted st ↔ is_Some (st !! k))
  ∧ get_user_chatrooms listdir_sorted "bob" two_talk = [team_summary]
  ∧ get_user_chatrooms listdir_sorted "carol" two_talk = []
  ∧ team_summary ∈ get_user_chatrooms listdir_sorted "bob" two_talk.
Proof.
  split; [exact listdir_sorted_spec|].
  split; [vm_compute; reflexivity|]. split; [vm_compute; reflexivity|].
  apply (get_user_chatrooms_lists listdir_sorted "bob" two_talk team_summary
           listdir_sorted_spec).
  eexists "3f2a9c1e", _. split; [vm_compute; reflexivity|].
  split; [|by repeat split]. simpl. set_solver.
Defined.

(** *** The room a resolution creates, and the rooms it accepts *)

Lemma sorted_pair_ordered a b :
  ∃ lo hi, Py.sorted [a; b] = [lo; hi] ∧ String.leb lo hi = true
    ∧ ((lo = a ∧ hi = b) ∨ (lo = b ∧ hi = a)).
Proof.
  simpl. destruct (String.leb a b) eqn:E.
  - exists a, b. auto.
  - exists b, a. split; [done|]. split; [|auto].
    destruct (String.leb_total a b); congruence.
Qed.

(** X9.  When [create_direct_message] reports a creation, the room it stored
    is named ["DM_<lo>_<hi>"] for the two users in ascending order, has
    [lo] as creator, the two of them in that order as members (the same
    user twice when the two are one) and no message. *)
Theorem create_direct_message_creates listdir uuid now user1 user2
    (st : store) :
  (create_direct_message listdir uuid now user1 user2 st).1.2 = true →
  ∃ lo hi,
    ((lo = user1 ∧ hi = user2) ∨ (lo = user2 ∧ hi = user1))
    ∧ String.leb lo hi = true
    ∧ create_direct_message listdir uuid now user1 user2 st
      = ((Some (generate_chatroom_id uuid), true),
         <[generate_chatroom_id uuid :=
             {| room_id := generate_chatroom_id uuid;
                room_name := "DM_" +:+ lo +:+ "_" +:+ hi;
                creator := lo; created_at := now;
                members := [lo; hi]; messages := [] |}]> st).
Proof.
  unfold create_direct_message.
  destruct (sorted_pair_ordered user1 user2) as (lo & hi & -> & Hle & Hlh).
  destruct (find_direct_message [lo; hi] st (listdir st)); [done|].
  intros _. exists lo, hi. split; [done|]. split; [done|].
  unfold create_chatroom. cbn [default id lookup_total list_lookup_total].
  assert (Py.contains lo [lo; hi] = true) as ->
    by (apply contains_true; left).
  reflexivity.
Qed.

Lemma create_direct_message_creates_witness :
  (create_direct_message listdir_sorted
     "77e0c2aa-1f7e-4d7b-8f43-5a59c7b0e1d2" 1700000100 "bob" "alice"
     ∅).1.2 = true
  ∧ create_direct_message listdir_sorted
      "77e0c2aa-1f7e-4d7b-8f43-5a59c7b0e1d2" 1700000100 "bob" "alice" ∅
    = ((Some "77e0c2aa", true),
       {[ "77e0c2aa" :=
            {| room_id := "77e0c2aa"; room_name := "DM_alice_bob";
               creator := "alice"; created_at := 1700000100;
               members := ["alice"; "bob"]; messages := [] |} ]}).
Proof.
  assert ((create_direct_message listdir_sorted
             "77e0c2aa-1f7e-4d7b-8f43-5a59c7b0e1d2" 1700000100 "bob" "alice"
             ∅).1.2 = true) as H by (vm_compute; reflexivity).
  split; [exact H|].
  destruct (create_direct_message_creates listdir_sorted
              "77e0c2aa-1f7e-4d7b-8f43-5a59c7b0e1d2" 1700000100%Z
              "bob" "alice" ∅ H)
    as (lo & hi & [[-> ->] | [-> ->]] & Hle & ->).
  - vm_compute in Hle. discriminate.
  - vm_compute. reflexivity.
Defined.

Lemma find_direct_message_some users (st : store) filenames i :
  find_direct_message users st filenames = Some i →
  ∃ f r, f ∈ filenames ∧ st !! f = Some r
    ∧ is_direct_message users r = true ∧ room_id r = i.
Proof.
  induction filenames as [|g rest IH]; simpl; [done|].
  destruct (st !! g) as [rg|] eqn:Eg.
  - destruct (is_direct_message users rg) eqn:Edm.
    + intros [= <-]. exists g, rg. split; [left|]. done.
    + intros (f & r & Hf & H)%IH. exists f, r. split; [by right | done].
  - intros (f & r & Hf & H)%IH. exists f, r. split; [by right | done].
Qed.

(** X10.  The resolver takes for the pair's room any stored room whose name
    starts with ["DM_"] and whose members are two entries naming exactly
    the two users, whoever created it and whatever the rest of its name:
    when one is stored, nothing is created or written and the id of such
    a room is returned. *)
Theorem create_direct_message_accepts listdir uuid now user1 user2
    (st : store) chatroom_id r :
  (∀ (st : store) k, k ∈ listdir st ↔ is_Some (st !! k)) →
  st !! chatroom_id = Some r →
  Py.startswith "DM_" (room_name r) = true →
  length (members r) = 2 →
  (∀ u, u ∈ members r ↔ u = user1 ∨ u = user2) →
  (create_direct_message listdir uuid now user1 user2 st).1.2 = false
  ∧ (create_direct_message listdir uuid now user1 user2 st).2 = st
  ∧ ∃ found r',
      (create_direct_message listdir uuid now user1 user2 st).1.1
      = Some (room_id r')
      ∧ st !! found = Some r'
      ∧ Py.startswith "DM_" (room_name r') = true
      ∧ length (members r') = 2
      ∧ (∀ u, u ∈ members r' ↔ u = user1 ∨ u = user2).
Proof.
  intros Hspec Hr Hname Hlen Hmem.
  assert (∀ r0, is_direct_message (Py.sorted [user1; user2]) r0 = true ↔
            Py.startswith "DM_" (room_name r0) = true
            ∧ length (members r0) = 2
            ∧ (∀ u, u ∈ members r0 ↔ u = user1 ∨ u = user2)) as Hdm.
  { intros r0. unfold is_direct_message, Py.set_eq.
    rewrite !andb_true_iff, !bool_decide_eq_true.
    assert ((list_to_set (members r0) : gset string)
            = list_to_set (Py.sorted [user1; user2]) ↔
            ∀ u, u ∈ members r0 ↔ u = user1 ∨ u = user2) as ->.
    { rewrite set_eq. apply forall_proper. intros u.
      rewrite !elem_of_list_to_set.
      destruct (sorted_pair user1 user2) as [-> | ->];
        rewrite !elem_of_cons, elem_of_nil; tauto. }
    tauto. }
  unfold create_direct_message.
  destruct (find_direct_message (Py.sorted [user1; user2]) st (listdir st))
    as [found|] eqn:Efind.
  - cbn [fst snd]. split; [done|]. split; [done|].
    apply find_direct_message_some in Efind
      as (f & r' & _ & Hr' & Hdm' & <-).
    apply Hdm in Hdm' as (? & ? & ?). exists f, r'. done.
  - assert (is_direct_message (Py.sorted [user1; user2]) r = true) as Hyes
      by (by apply Hdm).
    assert (chatroom_id ∈ listdir st) as Hin by (apply Hspec; eauto).
    pose proof (find_direct_message_none _ _ _ Efind _ _ Hin Hr).
    congruence.
Qed.

(** A group room that happens to be named ["DM_party"]. *)
Definition party : store :=
  (create_chatroom "c4a1d2e3-5b6f-4789-8a9b-0c1d2e3f4a5b" 1700000000
     "DM_party" "bob" (Some ["alice"]) ∅).2.

Lemma create_direct_message_accepts_witness :
  party !! "c4a1d2e3"
  = Some {| room_id := "c4a1d2e3"; room_name := "DM_party";
            creator := "bob"; created_at := 1700000000;
            members := ["alice"; "bob"]; messages := [] |}
  ∧ create_direct_message listdir_sorted
      "77e0c2aa-1f7e-4d7b-8f43-5a59c7b0e1d2" 1700000100 "alice" "bob" party
    = ((Some "c4a1d2e3", false), party)
  ∧ (create_direct_message listdir_sorted
       "77e0c2aa-1f7e-4d7b-8f43-5a59c7b0e1d2" 1700000100 "alice" "bob"
       party).2 = party.
Proof.
  assert (party !! "c4a1d2e3"
          = Some {| room_id := "c4a1d2e3"; room_name := "DM_party";
                    creator := "bob"; created_at := 1700000000;
                    members := ["alice"; "bob"]; messages := [] |}) as H
    by (vm_compute; reflexivity).
  split; [exact H|]. split; [vm_compute; reflexivity|].
  refine (proj1 (proj2 (create_direct_message_accepts listdir_sorted
            "77e0c2aa-1f7e-4d7b-8f43-5a59c7b0e1d2" 1700000100%Z
            "alice" "bob" party "c4a1d2e3" _ listdir_sorted_spec H
            eq_refl eq_refl _))).
  intros u. simpl. rewrite !elem_of_cons, elem_of_nil. tauto.
Defined.

(** *** How the operations compose *)

Lemma remove_appended x l : x ∉ l → Py.remove x (l ++ [x]) = l.
Proof.
  induction l as [|y l IH]; simpl; intros Hx.
  - by rewrite decide_True.
  - apply not_elem_of_cons in Hx as [Hne Hx].
    rewrite decide_False by done. by rewrite IH.
Qed.

(** X11.  Adding a user who is not a member and removing the user again gives
    back the directory as it was, file for file. *)
Theorem add_then_remove_member chatroom_id username (st : store) r :
  st !! chatroom_id = Some r →
  username ∉ members r →
  username ≠ creator r →
  (add_member chatroom_id username st).1
  = (true, "Member added successfully")
  ∧ remove_member chatroom_id username (add_member chatroom_id username st).2
    = ((true, "Member removed successfully"), st).
Proof.
  intros Hr Hin Hne. rewrite (add_member_fresh _ _ _ _ Hr Hin).
  split; [done|]. cbn [snd].
  rewrite (remove_member_removes chatroom_id username _
             (set_members (members r ++ [username]) r));
    [|apply lookup_insert_eq | simpl; set_solver | done].
  f_equal. rewrite insert_insert_eq. cbn [members set_members].
  rewrite (remove_appended _ _ Hin). apply insert_id.
  rewrite Hr. by destruct r.
Qed.

Lemma add_then_remove_member_witness :
  team_talk !! "3f2a9c1e" = Some (set_messages [hello] team)
  ∧ remove_member "3f2a9c1e" "carol"
      (add_member "3f2a9c1e" "carol" team_talk).2
    = ((true, "Member removed successfully"), team_talk).
Proof.
  assert (team_talk !! "3f2a9c1e" = Some (set_messages [hello] team)) as H
    by (vm_compute; reflexivity).
  split; [exact H|].
  refine (proj2 (add_then_remove_member "3f2a9c1e" "carol" team_talk _ H
                   _ ltac:(discriminate))).
  simpl. rewrite !not_elem_of_cons. repeat split; try discriminate.
  apply not_elem_of_nil.
Defined.

(** X12.  A member who was removed from a room whose members are distinct can
    no longer send to it. *)
Theorem removed_member_cannot_send uuid now chatroom_id username content0
    message_type file_info0 (st : store) r :
  st !! chatroom_id = Some r →
  NoDup (members r) →
  username ∈ members r →
  username ≠ creator r →
  (remove_member chatroom_id username st).1
  = (true, "Member removed successfully")
  ∧ add_message uuid now chatroom_id username content0 message_type
      file_info0 (remove_member chatroom_id username st).2
    = ((false, "Only members can send messages", None),
       (remove_member chatroom_id username st).2).
Proof.
  intros Hr Hnd Hin Hne.
  rewrite (remove_member_removes _ _ _ _ Hr Hin Hne). split; [done|].
  cbn [snd].
  apply (add_message_stranger _ _ _ _ _ _ _ _
           (set_members (Py.remove username (members r)) r)).
  - apply lookup_insert_eq.
  - simpl. by apply remove_gone.
Qed.

Lemma removed_member_cannot_send_witness :
  team_talk !! "3f2a9c1e" = Some (set_messages [hello] team)
  ∧ (remove_member "3f2a9c1e" "bob" team_talk).1.1 = true
  ∧ (add_message "9d3b7c55-0a4e-4a38-8d4b-6b0a5a3e2f10" 1700000070
       "3f2a9c1e" "bob" "hi" "text" None
       (remove_member "3f2a9c1e" "bob" team_talk).2).1
    = (false, "Only members can send messages", None).
Proof.
  assert (team_talk !! "3f2a9c1e" = Some (set_messages [hello] team)) as H
    by (vm_compute; reflexivity).
  split; [exact H|]. split; [vm_compute; reflexivity|].
  rewrite (proj2 (removed_member_cannot_send
             "9d3b7c55-0a4e-4a38-8d4b-6b0a5a3e2f10" 1700000070%Z
             "3f2a9c1e" "bob" "hi" "text" None team_talk _ H
             ltac:(simpl; apply NoDup_cons; split;
                   [rewrite list_elem_of_singleton; discriminate
                   | apply NoDup_singleton])
             ltac:(simpl; right; left)
             ltac:(discriminate))).
  reflexivity.
Defined.

Lemma sort_desc_newest (m : message) l :
  Forall (λ m', (timestamp m' < timestamp m)%Z) l →
  Py.sort_desc timestamp (l ++ [m]) = m :: Py.sort_desc timestamp l.
Proof.
  induction 1 as [|y l Hy _ IH]; [done|].
  simpl. fold (Py.sort_desc timestamp (l ++ [m])).
  fold (Py.sort_desc timestamp l). rewrite IH. simpl.
  by replace (timestamp m <=? timestamp y)%Z with false
    by (symmetry; apply Z.leb_gt; lia).
Qed.

(** X13.  A message sent at a time later than every message of the room is
    the first of the next listing, followed by the listing there was
    before. *)
Theorem sent_message_listed_first uuid now chatroom_id sender0 content0
    message_type file_info0 limit (st : store) r :
  st !! chatroom_id = Some r →
  sender0 ∈ members r →
  Forall (λ m, (timestamp m < now)%Z) (messages r) →
  (0 < limit)%Z →
  ∃ m,
    (add_message uuid now chatroom_id sender0 content0 message_type
       file_info0 st).1 = (true, "Message added successfully", Some m)
    ∧ get_messages chatroom_id limit None
        (add_message uuid now chatroom_id sender0 content0 message_type
           file_info0 st).2
      = m :: get_messages chatroom_id (limit - 1) None st.
Proof.
  intros Hr Hin Hold Hlimit.
  rewrite (add_message_sent _ _ _ _ _ _ _ _ _ Hr Hin).
  eexists. split; [done|]. cbn [snd].
  rewrite (get_messages_existing _ _ _ _
             (set_messages
                (messages r
                   ++ [new_message uuid now sender0 content0 message_type
                         file_info0]) r))
    by apply lookup_insert_eq.
  rewrite (get_messages_existing _ _ _ _ _ Hr).
  cbn [messages set_messages].
  rewrite sort_desc_newest by done.
  unfold Py.slice_to.
  replace (0 <=? limit)%Z with true by (symmetry; apply Z.leb_le; lia).
  replace (0 <=? limit - 1)%Z with true by (symmetry; apply Z.leb_le; lia).
  replace (Z.to_nat limit) with (S (Z.to_nat (limit - 1))) by lia.
  done.
Qed.

Lemma sent_message_listed_first_witness :
  team_talk !! "3f2a9c1e" = Some (set_messages [hello] team)
  ∧ content <$>
      get_messages "3f2a9c1e" 50 None
        (add_message "9d3b7c55-0a4e-4a38-8d4b-6b0a5a3e2f10" 1700000070
           "3f2a9c1e" "bob" "hi" "text" None team_talk).2
    = ["hi"; "hello"].
Proof.
  assert (team_talk !! "3f2a9c1e" = Some (set_messages [hello] team)) as H
    by (vm_compute; reflexivity).
  split; [exact H|].
  destruct (sent_message_listed_first
              "9d3b7c55-0a4e-4a38-8d4b-6b0a5a3e2f10" 1700000070%Z
              "3f2a9c1e" "bob" "hi" "text" None 50%Z team_talk _ H)
    as (m & Hm & ->).
  - simpl. right. left.
  - repeat constructor.
  - lia.
  - vm_compute in Hm. injection Hm as <-. vm_compute. reflexivity.
Defined.

End ChatroomExtras.

(** ** The node control channel and the response ledger *)
Module NodeExtras.
Import NodeController NodeProofs PosixProofs.

(** *** Commands *)

(** A command file is never a result file. *)
Lemma in_out_differ s1 s2 : s1 +:+ ".in" ≠ s2 +:+ ".out".
Proof.
  revert s2. induction s1 as [|c s1 IH]; intros s2 Heq.
  - apply (f_equal String.length) in Heq.
    rewrite !append_length in Heq. simpl in Heq. lia.
  - destruct s2 as [|d s2].
    + simpl in Heq. injection Heq as _ Heq.
      pose proof (f_equal String.length Heq) as Hlen.
      rewrite !append_length in Hlen. simpl in Hlen.
      destruct s1; [discriminate | simpl in Hlen; lia].
    + simpl in Heq. injection Heq as _ Heq. by apply (IH s2).
Qed.

(** The file a command is written to has a name in [".in"], so it is the
    result file of no address. *)
Lemma node_file_in node_address file :
  node_file (in_file node_address) = Some file →
  ∃ s, file = s +:+ ".in".
Proof.
  unfold node_file, Posix.key, in_file.
  assert (∃ p, Posix.join "/_nodes"
                 (_format_node_address node_address +:+ ".in")
               = p +:+ ".in") as [p ->].
  { unfold Posix.join. destruct (Py.startswith _ _); [eauto|].
    by exists ("/_nodes/" +:+ _format_node_address node_address). }
  destruct (Posix.locate nodes_tree (p +:+ ".in")) as [[here f]|] eqn:E;
    [|done].
  unfold Posix.locate in E.
  destruct (Posix.has_char _ _); [done|].
  case_bool_decide; [done|].
  destruct (split_extension p ".in" eq_refl) as (components & g & Hsplit).
  rewrite Hsplit in E. apply walk_last in E as ->.
  intros [= <-]. case_bool_decide.
  - exists g. apply stem_0.
  - destruct (absolute_ends here (g +:+ ".in")) as [q ->].
    exists (q +:+ g). by rewrite append_append.
Qed.

(** A plain name in [".in"] names its own file of [_nodes]. *)
Lemma node_file_plain s :
  Posix.plain (s +:+ ".in") = true →
  node_file (s +:+ ".in") = Some (s +:+ ".in").
Proof.
  set (name := s +:+ ".in"). intros Hplain.
  assert (3 ≤ String.length name) as Hlong
    by (unfold name; rewrite append_length; simpl; lia).
  assert (Posix.file_name nodes_tree ["_nodes"] name = true) as Hfile.
  { apply file_name_plain; [done..|]. unfold nodes_tree. intros Hin.
    apply elem_of_cons in Hin as [?|Hin]; [done|].
    apply elem_of_cons in Hin as [?|Hin]; [done|].
    by apply elem_of_nil in Hin. }
  unfold Posix.plain in Hplain.
  apply andb_prop in Hplain as [[Hslash Hnul]%andb_prop Hlen].
  apply bool_decide_eq_true_1 in Hlen.
  apply negb_true_iff in Hslash, Hnul.
  unfold node_file, Posix.key, Posix.join.
  assert (Py.startswith "/" name = false) as ->.
  { destruct name as [|c name']; [done|]. simpl in Hslash.
    apply orb_false_elim in Hslash as [Hc _].
    unfold Py.startswith. cbn [String.prefix].
    by destruct (ascii_dec "/" c) as [<-|]. }
  unfold Posix.locate.
  assert (Posix.has_char "000" ("/_nodes" +:+ "/" +:+ name) = false) as ->
    by (by rewrite !has_char_append, Hnul).
  rewrite bool_decide_eq_false_2
    by (rewrite !byte_length_append; simpl; lia).
  assert (Posix.split ("/_nodes" +:+ "/" +:+ name) = [""; "_nodes"; name])
    as -> by (rewrite <- (split_plain name Hslash); reflexivity).
  assert (Posix.walk nodes_tree [] [""; "_nodes"; name]
          = Posix.walk nodes_tree ["_nodes"] [name]) as -> by reflexivity.
  cbn [Posix.walk]. rewrite Hfile.
  rewrite bool_decide_eq_true_2 by done. by rewrite stem_0.
Qed.

(** X14.  Writing a command raises exactly when the path of the command
    file leads to no file that can be made, as for an address with a
    ["/"] into a directory that is missing, and then it changes nothing.
    Otherwise it reports success and overwrites that one file, so of
    two commands the later is the one that stays; for an address whose
    command file has a plain name (no ["/"], no NUL, at most 255 bytes)
    this is the file of that name.  It never changes another file or a
    stored response: a poll of any address returns after it what it
    would have returned before. *)
Theorem write_to_node_outcome node_address message c :
  ((_write_to_node node_address message c).1 = Some true
   ↔ is_Some (node_file (in_file node_address)))
  ∧ ((_write_to_node node_address message c).1 = None
     ↔ node_file (in_file node_address) = None)
  ∧ (node_file (in_file node_address) = None →
     (_write_to_node node_address message c).2 = c)
  ∧ (∀ file, node_file (in_file node_address) = Some file →
       files (_write_to_node node_address message c).2 !! file
       = Some message
       ∧ ∀ f, f ≠ file →
           files (_write_to_node node_address message c).2 !! f
           = files c !! f)
  ∧ (Posix.plain (in_file node_address) = true →
     (_write_to_node node_address message c).1 = Some true
     ∧ files (_write_to_node node_address message c).2
         !! in_file node_address = Some message)
  ∧ (∀ earlier,
       (_write_to_node node_address message
          (_write_to_node node_address earlier c).2).2
       = (_write_to_node node_address message c).2)
  ∧ responses (_write_to_node node_address message c).2 = responses c
  ∧ (∀ a now,
       (get_response a now (_write_to_node node_address message c).2).1
       = (get_response a now c).1).
Proof.
  assert (Posix.plain (in_file node_address) = true →
          node_file (in_file node_address) = Some (in_file node_address))
    as Hplain by (unfold in_file; apply node_file_plain).
  pose proof (node_file_in node_address) as Hin.
  unfold _write_to_node.
  destruct (node_file (in_file node_address)) as [file|] eqn:Hfile;
    cbn [fst snd files responses].
  - split; [split; [eauto | done]|]. split; [split; done|].
    split; [done|].
    split.
    { intros ? [= <-]. split; [apply lookup_insert_eq|].
      intros f Hf. by rewrite lookup_insert_ne. }
    split.
    { intros [= <-]%Hplain. split; [done | apply lookup_insert_eq]. }
    split; [intros earlier; by rewrite insert_insert_eq|].
    split; [done|].
    intros a now.
    assert (∀ c1 c2, files c1 !! out_file a = files c2 !! out_file a →
              (get_response a now c1).1 = (get_response a now c2).1)
      as Hsame.
    { intros c1 c2 Heq.
      destruct (get_response_cases a now c1)
        as [[H1 ->] | (t1 & E1 & Hn1 & Hd1 & ->)];
      destruct (get_response_cases a now c2)
        as [[H2 ->] | (t2 & E2 & Hn2 & Hd2 & ->)]; cbn [fst]; try done.
      - rewrite <- Heq in E2.
        destruct H1 as [H1 | (t1 & E1 & H1)]; [congruence|].
        rewrite E1 in E2. injection E2 as <-. by destruct H1.
      - rewrite Heq in E1.
        destruct H2 as [H2 | (t2 & E2 & H2)]; [congruence|].
        rewrite E2 in E1. injection E1 as <-. by destruct H2.
      - congruence. }
    apply Hsame. cbn [files]. rewrite lookup_insert_ne; [done|].
    destruct (Hin file eq_refl) as [s ->].
    unfold out_file. apply in_out_differ.
  - split; [split; [done | by intros [? ?]]|]. split; [done|].
    split; [done|]. split; [done|].
    split; [by intros ?%Hplain|]. by repeat split.
Qed.

(** An address with a ["/"] into a directory that is missing: the write
    raises; an address of a host and a port: the write succeeds on the
    file of the address. *)
Lemma write_to_node_examples :
  _write_to_node "a/b:1" "exit" (init ∅) = (None, init ∅)
  ∧ _write_to_node "10.0.0.5:9000" "exit" (init ∅)
    = (Some true,
       {| files := {["10.0.0.5_9000.in" := "exit"]}; responses := ∅ |}).
Proof. split; vm_compute; reflexivity. Qed.

(** The command lines of the four plain commands. *)
Lemma command_lines node_address peer recipient message c file :
  node_file (in_file node_address) = Some file →
  files (submit_info node_address c).2 !! file = Some "submit_info"
  ∧ files (peer_connect node_address peer c).2 !! file
    = Some ("peer_connect:" +:+ peer)
  ∧ files (exit_node node_address c).2 !! file = Some "exit"
  ∧ files (send_chat node_address recipient message c).2 !! file
    = Some ("send_chat:" +:+ recipient +:+ ":" +:+ message).
Proof.
  intros Hfile.
  unfold submit_info, peer_connect, exit_node, send_chat, _write_to_node.
  rewrite Hfile. cbn [snd files]. by rewrite !lookup_insert_eq.
Qed.

(** *** What a poll touches *)

(** X15.  A poll changes at most the result file of its address, which it
    empties, and the history of its address, to which it adds one entry:
    every other file and the history of every other address stay. *)
Theorem get_response_frame node_address now c :
  (∀ f, f ≠ out_file node_address →
     files (get_response node_address now c).2 !! f = files c !! f)
  ∧ (∀ a, a ≠ node_address →
       get_all_responses a (get_response node_address now c).2
       = get_all_responses a c)
  ∧ (∀ text, files (get_response node_address now c).2
               !! out_file node_address = Some text →
       text = "" ∨ files c !! out_file node_address = Some text)
  ∧ ((get_response node_address now c).1 = None →
       (get_response node_address now c).2 = c)
  ∧ (∀ r, (get_response node_address now c).1 = Some r →
       get_all_responses node_address (get_response node_address now c).2
       = Py.last_n 100
           (get_all_responses node_address c
              ++ [{| content := r; timestamp := now |}])).
Proof.
  destruct (get_response_cases node_address now c)
    as [[_ ->] | (text & E & H1 & H2 & ->)]; cbn [fst snd].
  - repeat split; try done. intros text ?. by right.
  - cbn [files]. unfold get_all_responses. cbn [responses].
    split; [intros f Hf; by rewrite lookup_insert_ne|].
    split; [intros a Ha; rewrite record_response_lookup;
            by rewrite decide_False|].
    split; [intros t; rewrite lookup_insert_eq; intros [= <-]; by left|].
    split; [done|].
    intros r [= <-]. rewrite record_response_lookup.
    by rewrite decide_True.
Qed.

Lemma get_response_takes node_address now c text :
  files c !! out_file node_address = Some text →
  Py.strip text ≠ "" →
  Py.strip text ≠ "done" →
  get_response node_address now c
  = (Some (Py.strip text),
     {| files := <[out_file node_address := ""]> (files c);
        responses :=
          record_response node_address
            {| content := Py.strip text; timestamp := now |}
            (responses c) |}).
Proof.
  intros E H1 H2.
  destruct (get_response_cases node_address now c)
    as [[[Hn | (t & Ht & Hs)] _] | (t & Ht & _ & _ & ->)].
  - congruence.
  - rewrite E in Ht. injection Ht as <-. by destruct Hs.
  - rewrite E in Ht. by injection Ht as <-.
Qed.

(** X16.  Two addresses with one identifier share the result file: what a
    poll of one of them takes is gone for the other, which then polls
    nothing, and it is recorded for the first only. *)
Theorem shared_slot_taken_once node_address other now now' c text :
  _format_node_address node_address = _format_node_address other →
  node_address ≠ other →
  files c !! out_file other = Some text →
  Py.strip text ≠ "" →
  Py.strip text ≠ "done" →
  (get_response node_address now c).1 = Some (Py.strip text)
  ∧ (get_response other now' (get_response node_address now c).2).1 = None
  ∧ get_all_responses other (get_response node_address now c).2
    = get_all_responses other c.
Proof.
  intros Hfmt Hne E H1 H2.
  assert (out_file other = out_file node_address) as Hout
    by (unfold out_file; by rewrite Hfmt).
  rewrite Hout in E.
  pose proof (get_response_takes node_address now c text
                E H1 H2) as Hget.
  split; [by rewrite Hget|]. split.
  - destruct (get_response_cases other now'
                (get_response node_address now c).2)
      as [[_ ->] | (t & Et & Hn & _)]; [done|].
    rewrite Hout, Hget in Et. cbn [snd files] in Et.
    rewrite lookup_insert_eq in Et. injection Et as <-. by destruct Hn.
  - rewrite Hget. unfold get_all_responses. cbn [snd responses].
    rewrite record_response_lookup. by rewrite decide_False.
Qed.

Definition shared : controller :=
  init {[ "peer_1_7091.out" := connected_line ]}.

Lemma shared_slot_taken_once_witness :
  _format_node_address "peer_1:7091" = _format_node_address "peer:1:7091"
  ∧ files shared !! out_file "peer:1:7091" = Some connected_line
  ∧ (get_response "peer_1:7091" 1700000000 shared).1 = Some "connected"
  ∧ (get_response "peer:1:7091" 1700000001
       (get_response "peer_1:7091" 1700000000 shared).2).1 = None
  ∧ get_all_responses "peer:1:7091"
      (get_response "peer_1:7091" 1700000000 shared).2 = [].
Proof.
  assert (files shared !! out_file "peer:1:7091" = Some connected_line)
    as E by (vm_compute; reflexivity).
  split; [reflexivity|]. split; [exact E|].
  exact (shared_slot_taken_once "peer_1:7091" "peer:1:7091"
           1700000000%Z 1700000001%Z shared connected_line eq_refl
           ltac:(discriminate) E ltac:(vm_compute; discriminate)
           ltac:(vm_compute; discriminate)).
Defined.

(** *** Clearing and bounds of the ledger *)

Lemma clear_responses_history node_address c a :
  get_all_responses a (clear_responses node_address c)
  = if decide (a = node_address) then [] else get_all_responses a c.
Proof.
  unfold clear_responses, get_all_responses.
  case_bool_decide as Hs; cbn [responses].
  - destruct (decide (a = node_address)) as [->|Hne].
    + by rewrite lookup_insert_eq.
    + by rewrite lookup_insert_ne.
  - destruct (decide (a = node_address)) as [->|Hne]; [|done].
    destruct (responses c !! node_address) eqn:E; [|done].
    destruct Hs. eauto.
Qed.

(** X17.  [clear_responses] empties the history of its address, keeps the
    history of every other address and every file, and for an address
    that has no history leaves the controller as it is. *)
Theorem clear_responses_outcome node_address c :
  get_all_responses node_address (clear_responses node_address c) = []
  ∧ (∀ a, a ≠ node_address →
       get_all_responses a (clear_responses node_address c)
       = get_all_responses a c)
  ∧ files (clear_responses node_address c) = files c
  ∧ (responses c !! node_address = None →
     clear_responses node_address c = c).
Proof.
  unfold clear_responses, get_all_responses.
  case_bool_decide as Hs; cbn [responses files].
  - split; [by rewrite lookup_insert_eq|].
    split; [intros a Ha; by rewrite lookup_insert_ne|].
    split; [done|]. intros Hnone. rewrite Hnone in Hs.
    by destruct (is_Some_None Hs).
  - split.
    + destruct (responses c !! node_address) eqn:E; [|done].
      destruct Hs. eauto.
    + done.
Qed.

(** The length of every history is at most a hundred. *)
Definition bounded (c : controller) : Prop :=
  ∀ a, length (get_all_responses a c) ≤ 100.

Lemma step_bounded ev c : bounded c → bounded (step ev c).
Proof.
  intros Hc a.
  destruct ev; [exact (Hc a) | exact (Hc a) | | simpl | simpl].
  - cbn [step]. rewrite write_to_node_history. exact (Hc a).
  - destruct (get_response_cases node_address now c)
      as [[_ ->] | (text & _ & _ & _ & ->)]; [exact (Hc a)|].
    unfold get_all_responses. cbn [snd responses].
    rewrite record_response_lookup.
    destruct (decide (node_address = a)); [|exact (Hc a)].
    rewrite last_n_length. lia.
  - rewrite clear_responses_history.
    destruct (decide (a = node_address)); [simpl; lia | exact (Hc a)].
Qed.

(** X18.  Whatever the controller and the node do, in whatever order, no
    address ever has more than a hundred stored responses. *)
Theorem ledger_bounded files0 evs node_address :
  length (get_all_responses node_address (run evs (init files0))) ≤ 100.
Proof.
  assert (bounded (init files0)) as H0.
  { intros a. unfold get_all_responses, init. cbn [responses].
    rewrite lookup_empty. simpl. lia. }
  revert H0. generalize (init files0).
  induction evs as [|ev evs IH]; intros c Hc; [exact (Hc node_address)|].
  simpl. by apply IH, step_bounded.
Qed.

(** X19.  Up to a hundred results nothing is dropped: while the history of an
    address is not cleared and at most a hundred results were returned
    for it, the history is exactly those results with the times of their
    polls, in the order of the polls. *)
Theorem ledger_keeps_all_until_100 files0 evs node_address :
  ClearResponses node_address ∉ evs →
  length (observed node_address evs (init files0)) ≤ 100 →
  get_all_responses node_address (run evs (init files0))
  = observed node_address evs (init files0).
Proof.
  intros Hevs Hshort.
  assert (get_all_responses node_address (init files0) = []) as Hinit
    by (unfold get_all_responses, init; cbn [responses];
        by rewrite lookup_empty).
  rewrite (run_history node_address evs (init files0) Hevs)
    by (rewrite Hinit; simpl; lia).
  rewrite Hinit. cbn [app]. by apply last_n_short.
Qed.

(** A node that answers twice, with a command and an idle poll between
    the answers. *)
Definition short_run : list event :=
  [NodeWrites "10.0.0.5_9000.out" connected_line;
   GetResponse "10.0.0.5:9000" 1700000000;
   WriteToNode "10.0.0.5:9000" "send_chat:bob:7091:hello";
   GetResponse "10.0.0.5:9000" 1700000001;
   NodeWrites "10.0.0.5_9000.out" "done";
   GetResponse "10.0.0.5:9000" 1700000002;
   NodeWrites "10.0.0.5_9000.out" "sent";
   GetResponse "10.0.0.5:9000" 1700000003].

Lemma ledger_keeps_all_until_100_witness :
  observed "10.0.0.5:9000" short_run (init ∅)
  = [{| content := "connected"; timestamp := 1700000000 |};
     {| content := "sent"; timestamp := 1700000003 |}]
  ∧ get_all_responses "10.0.0.5:9000" (run short_run (init ∅))
    = [{| content := "connected"; timestamp := 1700000000 |};
       {| content := "sent"; timestamp := 1700000003 |}].
Proof.
  assert (observed "10.0.0.5:9000" short_run (init ∅)
          = [{| content := "connected"; timestamp := 1700000000 |};
             {| content := "sent"; timestamp := 1700000003 |}]) as Hobs
    by (vm_compute; reflexivity).
  split; [exact Hobs|]. rewrite <- Hobs.
  apply (ledger_keeps_all_until_100 ∅ short_run "10.0.0.5:9000").
  - apply (bool_decide_unpack _). vm_compute. exact I.
  - rewrite Hobs. simpl. lia.
Defined.

(** X20.  Every stored response is a real result: along any run of a fresh
    controller no entry of any history has empty content or the content
    ["done"]. *)
Theorem ledger_holds_results files0 evs node_address e :
  e ∈ get_all_responses node_address (run evs (init files0)) →
  content e ≠ "" ∧ content e ≠ "done".
Proof.
  assert (real_results (init files0)) as H0.
  { intros a e'. unfold get_all_responses, init. cbn [responses].
    rewrite lookup_empty. simpl. by intros ?%elem_of_nil. }
  revert H0. generalize (init files0).
  induction evs as [|ev evs IH]; intros c Hc; [exact (Hc node_address e)|].
  simpl. by apply IH, step_real_results.
Qed.

Lemma ledger_holds_results_witness :
  {| content := "sent"; timestamp := 1700000003 |}
    ∈ get_all_responses "10.0.0.5:9000" (run short_run (init ∅))
  ∧ "sent" ≠ "done".
Proof.
  assert ({| content := "sent"; timestamp := 1700000003 |}
            ∈ get_all_responses "10.0.0.5:9000" (run short_run (init ∅)))
    as H.
  { replace (get_all_responses "10.0.0.5:9000" (run short_run (init ∅)))
      with [{| content := "connected"; timestamp := 1700000000 |};
            {| content := "sent"; timestamp := 1700000003 |}]
      by (vm_compute; reflexivity).
    right. left. }
  split; [exact H|].
  exact (proj2 (ledger_holds_results ∅ short_run "10.0.0.5:9000" _ H)).
Defined.

End NodeExtras.

(** ** The user store *)
Module UserExtras.
Import UserManager UserProofs.

Lemma get_user_info_read name m : get_user_info name m = read_user name m.
Proof.
  unfold get_user_info. destruct (read_user name m) eqn:E.
  - by rewrite (user_exists_some _ _ _ E).
  - by rewrite (proj2 (user_exists_false _ _) E).
Qed.

Section Hash.
Variable sha256_hexdigest : string → string.

(** The three ways a registration ends. *)
Lemma register_user_cases now name password ip0 port0 m :
  (∀ u, read_user name m = Some u →
     register_user sha256_hexdigest now name password ip0 port0 m
     = (Some (false, "Username already exists"), m))
  ∧ (user_file name = None →
     register_user sha256_hexdigest now name password ip0 port0 m
     = (None, m))
  ∧ (∀ file, user_file name = Some file → users m !! file = None →
     register_user sha256_hexdigest now name password ip0 port0 m
     = (Some (true, "User registered successfully"),
        {| users :=
             <[file := {| username := name;
                          password_hash :=
                            hash_password sha256_hexdigest password;
                          ip := ip0; port := port0; created_at := now;
                          last_login := None |}]> (users m);
           current_user := current_user m |})).
Proof.
  unfold register_user. split; [|split].
  - intros u E. by rewrite (user_exists_some _ _ _ E).
  - intros E. unfold user_exists, read_user. rewrite E.
    by rewrite bool_decide_eq_false_2 by (by intros [? ?]).
  - intros file E Hnone. unfold user_exists, read_user. rewrite E, Hnone.
    by rewrite bool_decide_eq_false_2 by (by intros [? ?]).
Qed.

(** The three ways an authentication ends. *)
Lemma authenticate_cases now name password m :
  (read_user name m = None →
   authenticate sha256_hexdigest now name password m
   = ((false, "User does not exist"), m))
  ∧ (∀ u, read_user name m = Some u →
       password_hash u ≠ hash_password sha256_hexdigest password →
       authenticate sha256_hexdigest now name password m
       = ((false, "Invalid password"), m))
  ∧ (∀ file u, user_file name = Some file → users m !! file = Some u →
       password_hash u = hash_password sha256_hexdigest password →
       ∃ u',
         authenticate sha256_hexdigest now name password m
         = ((true, "Authentication successful"),
            {| users := <[file := u']> (users m);
               current_user := Some u' |})
         ∧ last_login u' = Some now
         ∧ username u' = username u
         ∧ password_hash u' = password_hash u
         ∧ ip u' = ip u ∧ port u' = port u
         ∧ created_at u' = created_at u).
Proof.
  unfold authenticate. split; [|split].
  - intros E. by rewrite (proj2 (user_exists_false _ _) E).
  - intros u E Hne. rewrite (user_exists_some _ _ _ E), E.
    apply read_user_some in E as (file & -> & _). cbn [negb].
    by rewrite (proj2 (String.eqb_neq _ _) Hne).
  - intros file u Hfile E Heq.
    assert (read_user name m = Some u) as Hread
      by (apply read_user_some; eauto).
    rewrite (user_exists_some _ _ _ Hread), Hread, Hfile. cbn [negb].
    rewrite (proj2 (String.eqb_eq _ _) Heq).
    eexists. split; [reflexivity|]. by repeat split.
Qed.
End Hash.

(** The two ways a change of address ends. *)
Lemma update_user_address_cases name ip0 port0 m :
  (read_user name m = None →
   update_user_address name ip0 port0 m
   = ((false, "User does not exist"), m))
  ∧ (∀ file u, user_file name = Some file → users m !! file = Some u →
       ∃ u',
         (update_user_address name ip0 port0 m).1
         = (true, "User address updated")
         ∧ users (update_user_address name ip0 port0 m).2
           = <[file := u']> (users m)
         ∧ ip u' = ip0 ∧ port u' = port0
         ∧ username u' = username u
         ∧ password_hash u' = password_hash u
         ∧ created_at u' = created_at u
         ∧ last_login u' = last_login u
         ∧ (∀ cur, current_user m = Some cur → username cur = name →
              current_user (update_user_address name ip0 port0 m).2
              = Some u')
         ∧ (∀ cur, current_user m = Some cur → username cur ≠ name →
              current_user (update_user_address name ip0 port0 m).2
              = Some cur)
         ∧ (current_user m = None →
              current_user (update_user_address name ip0 port0 m).2
              = None)).
Proof.
  unfold update_user_address. split.
  - intros E. by rewrite (proj2 (user_exists_false _ _) E).
  - intros file u Hfile E.
    assert (read_user name m = Some u) as Hread
      by (apply read_user_some; eauto).
    rewrite (user_exists_some _ _ _ Hread), get_user_info_read, Hread, Hfile.
    cbn [negb fst snd users current_user].
    eexists. split; [done|]. split; [reflexivity|].
    cbn [ip port username password_hash created_at last_login].
    repeat split.
    + intros cur -> Hcur. by rewrite (proj2 (String.eqb_eq _ _) Hcur).
    + intros cur -> Hcur. by rewrite (proj2 (String.eqb_neq _ _) Hcur).
    + by intros ->.
Qed.

(** X24.  A change of address changes no credential: after it every name and
    password authenticate with the same outcome as before. *)
Theorem update_keeps_credentials sha256_hexdigest
    now name ip0 port0 name' password m :
  (authenticate sha256_hexdigest now name' password
     (update_user_address name ip0 port0 m).2).1
  = (authenticate sha256_hexdigest now name' password m).1.
Proof.
  destruct (read_user name m) as [u|] eqn:E.
  - apply read_user_some in E as (file & Hfile & E).
    destruct (proj2 (update_user_address_cases name ip0 port0 m)
                file u Hfile E)
      as (u' & _ & Husers & _ & _ & _ & Hhash & _).
    unfold authenticate, user_exists, read_user. rewrite Husers.
    destruct (user_file name') as [file'|]; [|done].
    destruct (decide (file = file')) as [<-|Hne].
    + rewrite lookup_insert_eq, E.
      rewrite !bool_decide_eq_true_2 by eauto. cbn [negb].
      rewrite Hhash.
      by destruct (String.eqb (password_hash u)
                     (hash_password sha256_hexdigest password)).
    + rewrite lookup_insert_ne by done.
      destruct (users m !! file') as [v|]; [|done].
      rewrite !bool_decide_eq_true_2 by eauto. cbn [negb].
      by destruct (String.eqb (password_hash v)
                     (hash_password sha256_hexdigest password)).
  - by rewrite (proj1 (update_user_address_cases name ip0 port0 m) E).
Qed.

(** *** Outcomes *)

(** X21.  Registration ends in one of three ways, by the user file of
    the name.  When the file exists it reports a taken name; when the
    path leads to no file that can be made (a missing directory, a NUL,
    a name that is too long) [open] raises; otherwise it succeeds.  Only
    a success writes: it stores in that file a record with the name, the
    hash of the password, the address, the time of the call and no login
    yet, changes no other file and does not log anyone in. *)
Theorem register_user_outcome sha256_hexdigest
    now name password ip0 port0 m :
  ((register_user sha256_hexdigest now name password ip0 port0 m).1
   = Some (true, "User registered successfully")
   ↔ user_exists name m = false ∧ is_Some (user_file name))
  ∧ ((register_user sha256_hexdigest now name password ip0 port0 m).1
     = Some (false, "Username already exists")
     ↔ user_exists name m = true)
  ∧ ((register_user sha256_hexdigest now name password ip0 port0 m).1
     = None
     ↔ user_file name = None)
  ∧ ((register_user sha256_hexdigest now name password ip0 port0 m).1
     ≠ Some (true, "User registered successfully") →
     (register_user sha256_hexdigest now name password ip0 port0 m).2 = m)
  ∧ (∀ file, user_file name = Some file →
       user_exists name m = false →
       users (register_user sha256_hexdigest now name password ip0 port0 m).2
         !! file
       = Some {| username := name;
                 password_hash := hash_password sha256_hexdigest password;
                 ip := ip0; port := port0; created_at := now;
                 last_login := None |}
       ∧ (∀ other, other ≠ file →
            users
              (register_user sha256_hexdigest now name password ip0 port0
                 m).2 !! other
            = users m !! other)
       ∧ current_user
           (register_user sha256_hexdigest now name password ip0 port0 m).2
         = current_user m).
Proof.
  destruct (register_user_cases sha256_hexdigest now name password ip0
              port0 m) as (Htaken & Hraise & Hfree).
  destruct (read_user name m) as [u|] eqn:E.
  - rewrite (Htaken u eq_refl). cbn [fst snd].
    pose proof (user_exists_some _ _ _ E) as Hex.
    apply read_user_some in E as (file & Hfile & E).
    rewrite Hex, Hfile.
    split; [split; [done | by intros [? _]]|].
    split; [done|]. split; [done|]. split; [done|].
    intros f _ ?. done.
  - pose proof (proj2 (user_exists_false _ _) E) as Hex. rewrite Hex.
    destruct (user_file name) as [file|] eqn:Hfile.
    + assert (users m !! file = None) as Hnone
        by (unfold read_user in E; by rewrite Hfile in E).
      rewrite (Hfree file eq_refl Hnone). cbn [fst snd users current_user].
      split; [split; eauto|]. split; [done|]. split; [done|].
      split; [done|]. intros f [= <-] _.
      split; [apply lookup_insert_eq|].
      split; [|done]. intros other Hne. by rewrite lookup_insert_ne.
    + rewrite (Hraise eq_refl). cbn [fst snd].
      split; [split; [done | by intros [_ [? ?]]]|].
      split; [done|]. split; [done|]. split; [done|].
      intros f ?. done.
Qed.

(** X22.  Authentication succeeds exactly when the name is stored with the
    hash of the given password.  A failure changes nothing: whoever was
    logged in before stays the current user.  A success stamps the record
    with the time of the call as last login, keeps its other fields,
    makes the stamped record the current user and changes no other
    user. *)
Theorem authenticate_outcome sha256_hexdigest now name password m :
  ((authenticate sha256_hexdigest now name password m).1.1 = true
   ↔ ∃ u, get_user_info name m = Some u
          ∧ password_hash u = hash_password sha256_hexdigest password)
  ∧ ((authenticate sha256_hexdigest now name password m).1.1 = false →
     (authenticate sha256_hexdigest now name password m).2 = m)
  ∧ (∀ u, get_user_info name m = Some u →
       (authenticate sha256_hexdigest now name password m).1.1 = true →
       ∃ u',
         get_current_user
           (authenticate sha256_hexdigest now name password m).2 = Some u'
         ∧ get_user_info name
             (authenticate sha256_hexdigest now name password m).2
           = Some u'
         ∧ last_login u' = Some now
         ∧ username u' = username u
         ∧ password_hash u' = password_hash u
         ∧ ip u' = ip u ∧ port u' = port u
         ∧ created_at u' = created_at u
         ∧ ∀ other, user_file name ≠ Some other →
             users (authenticate sha256_hexdigest now name password m).2
               !! other
             = users m !! other).
Proof.
  destruct (authenticate_cases sha256_hexdigest now name password m)
    as (Hnone & Hwrong & Hright).
  rewrite get_user_info_read.
  destruct (read_user name m) as [u|] eqn:E.
  - destruct (decide (password_hash u
                      = hash_password sha256_hexdigest password))
      as [Heq|Hne].
    + apply read_user_some in E as (file & Hfile & E).
      destruct (Hright file u Hfile E Heq)
        as (u' & -> & H1 & H2 & H3 & H4 & H5 & H6).
      cbn [fst snd]. split; [split; eauto|]. split; [done|].
      intros u0 [= <-] _. exists u'. unfold get_current_user.
      rewrite get_user_info_read. unfold read_user.
      cbn [users current_user]. rewrite Hfile, lookup_insert_eq.
      repeat split; try done.
      intros other Ho. rewrite lookup_insert_ne; [done | congruence].
    + rewrite (Hwrong u eq_refl Hne). cbn [fst snd].
      split; [|split; done].
      split; [done|]. intros (u0 & [= <-] & ?). done.
  - rewrite (Hnone eq_refl). cbn [fst snd].
    split; [|split; done].
    split; [done|]. intros (u0 & ? & _). done.
Qed.

(** X23.  [update_user_address] succeeds exactly for a stored name and
    otherwise changes nothing.  On success the stored record has the new
    address and port and its old name, password hash, creation time and
    last login; no other user changes; the current user becomes the new
    record when it has that name and stays as it is otherwise. *)
Theorem update_user_address_outcome name ip0 port0 m :
  ((update_user_address name ip0 port0 m).1.1 = true
   ↔ is_Some (get_user_info name m))
  ∧ ((update_user_address name ip0 port0 m).1.1 = false →
     update_user_address name ip0 port0 m
     = ((false, "User does not exist"), m))
  ∧ (∀ u, get_user_info name m = Some u →
       ∃ u',
         get_user_info name (update_user_address name ip0 port0 m).2
         = Some u'
         ∧ ip u' = ip0 ∧ port u' = port0
         ∧ username u' = username u
         ∧ password_hash u' = password_hash u
         ∧ created_at u' = created_at u
         ∧ last_login u' = last_login u
         ∧ (∀ other, user_file name ≠ Some other →
              users (update_user_address name ip0 port0 m).2 !! other
              = users m !! other)
         ∧ get_current_user (update_user_address name ip0 port0 m).2
           = match get_current_user m with
             | Some cur =>
                 if decide (username cur = name) then Some u' else Some cur
             | None => None
             end).
Proof.
  destruct (update_user_address_cases name ip0 port0 m) as (Hnone & Hsome).
  rewrite get_user_info_read.
  destruct (read_user name m) as [u|] eqn:E.
  - apply read_user_some in E as (file & Hfile & E).
    destruct (Hsome file u Hfile E)
      as (u' & Hok & Husers & H1 & H2 & H3 & H4 & H5 & H6 & Hc1 & Hc2 & Hc3).
    rewrite Hok. cbn [fst]. split; [split; eauto|]. split; [done|].
    intros u0 [= <-]. exists u'.
    rewrite get_user_info_read. unfold read_user.
    rewrite Husers, Hfile, lookup_insert_eq.
    repeat split; try done.
    + intros other Ho. rewrite lookup_insert_ne; [done | congruence].
    + unfold get_current_user.
      destruct (current_user m) as [cur|] eqn:Ec; [|by apply Hc3].
      destruct (decide (username cur = name)) as [Hn|Hn].
      * by apply (Hc1 cur).
      * by apply (Hc2 cur).
  - rewrite (Hnone eq_refl). cbn [fst snd].
    split; [|split; done].
    split; [done|]. intros [u0 ?]. done.
Qed.

(** *** Invariants of the user store *)

(** Every record is stored in the file of the name it holds, and the
    current user, when there is one, is the stored record of its
    name. *)
Definition in_sync (m : manager) : Prop :=
  (∀ file u, users m !! file = Some u →
     username u = file ∧ user_file file = Some file)
  ∧ (∀ u, current_user m = Some u → users m !! username u = Some u).

(** [u'] is [u] later on: same name, password hash and creation time. *)
Definition same_account (u u' : user) : Prop :=
  username u' = username u ∧ password_hash u' = password_hash u
  ∧ created_at u' = created_at u.

(** The calls of a sequence name users in one way each. *)
Definition own_files (ks : list call) : Prop :=
  Forall (λ k, ∀ name, call_name k = Some name → own_file name) ks.

(** A name without ["/"] and NUL, of at most 250 bytes, is such a
    name. *)
Lemma plain_own_file name :
  Posix.plain (name +:+ ".json") = true → own_file name.
Proof. intros Hplain. left. by apply user_file_plain. Qed.

Section Calls.
Variable sha256_hexdigest : string → string.

Lemma apply_call_in_sync k m :
  (∀ name, call_name k = Some name → own_file name) →
  in_sync m → in_sync (apply_call sha256_hexdigest k m).
Proof.
  intros Hown [Hkey Hcur].
  destruct k as [now name password ip0 port0 | now name password
                | name ip0 port0 |]; simpl.
  - destruct (register_user_cases sha256_hexdigest now name password ip0
                port0 m) as (Htaken & Hraise & Hfree).
    destruct (read_user name m) as [u|] eqn:E;
      [by rewrite (Htaken u eq_refl)|].
    destruct (Hown name eq_refl) as [Hfile|Hfile];
      [|by rewrite (Hraise Hfile)].
    assert (users m !! name = None) as Hnone
      by (unfold read_user in E; by rewrite Hfile in E).
    rewrite (Hfree name Hfile Hnone). cbn [snd].
    split; cbn [users current_user].
    + intros f v [[<- <-] | [Hne Hv]]%lookup_insert_Some; [done | eauto].
    + intros v Hv. rewrite lookup_insert_ne; [eauto|].
      intros Hn. apply Hcur in Hv. congruence.
  - destruct (authenticate_cases sha256_hexdigest now name password m)
      as (Hnone & Hwrong & Hright).
    destruct (read_user name m) as [u|] eqn:E;
      [|by rewrite (Hnone eq_refl)].
    destruct (decide (password_hash u
                      = hash_password sha256_hexdigest password))
      as [Heq|Hne]; [|by rewrite (Hwrong u eq_refl Hne)].
    apply read_user_some in E as (file & Hfile & E).
    destruct (Hkey file u E) as [Hname Hself].
    destruct (Hright file u Hfile E Heq)
      as (u' & -> & _ & Hname' & _).
    assert (username u' = file) as Hu' by congruence.
    cbn [snd]. split; cbn [users current_user].
    + intros f v [[<- <-] | [Hn Hv]]%lookup_insert_Some; [done | eauto].
    + intros v [= Hv]. rewrite <- Hv, Hu'. apply lookup_insert_eq.
  - destruct (update_user_address_cases name ip0 port0 m)
      as (Hnone & Hsome).
    destruct (read_user name m) as [u|] eqn:E;
      [|by rewrite (Hnone eq_refl)].
    apply read_user_some in E as (file & Hfile & E).
    assert (file = name) as ->.
    { destruct (Hown name eq_refl) as [H|H]; congruence. }
    destruct (Hkey name u E) as [Hname Hself].
    destruct (Hsome name u Hfile E)
      as (u' & _ & Husers & _ & _ & Hname' & _ & _ & _ & Hc1 & Hc2 & Hc3).
    assert (username u' = name) as Hu' by congruence.
    split.
    + rewrite Husers.
      intros f v [[<- <-] | [Hn Hv]]%lookup_insert_Some; [done | eauto].
    + rewrite Husers. intros v Hv.
      destruct (current_user m) as [cur|] eqn:Ec;
        [|rewrite (Hc3 eq_refl) in Hv; done].
      destruct (decide (username cur = name)) as [Hcn|Hcn].
      * rewrite (Hc1 cur eq_refl Hcn) in Hv. injection Hv as Hv.
        rewrite <- Hv, Hu'. apply lookup_insert_eq.
      * rewrite (Hc2 cur eq_refl Hcn) in Hv. injection Hv as Hv.
        rewrite <- Hv. rewrite lookup_insert_ne by done. by apply Hcur.
  - split; [exact Hkey | done].
Qed.

Lemma apply_call_same_account k m file u :
  users m !! file = Some u →
  ∃ u', users (apply_call sha256_hexdigest k m) !! file = Some u'
    ∧ same_account u u'.
Proof.
  intros Hu.
  assert (same_account u u) as Hrefl by (by repeat split).
  destruct k as [now n password ip0 port0 | now n password | n ip0 port0 |];
    simpl.
  - destruct (register_user_cases sha256_hexdigest now n password ip0
                port0 m) as (Htaken & Hraise & Hfree).
    destruct (read_user n m) as [v|] eqn:E;
      [rewrite (Htaken v eq_refl); eauto|].
    destruct (user_file n) as [f|] eqn:Hfile;
      [|rewrite (Hraise eq_refl); eauto].
    assert (users m !! f = None) as Hnone
      by (unfold read_user in E; by rewrite Hfile in E).
    rewrite (Hfree f eq_refl Hnone). cbn [snd users].
    exists u. split; [|done].
    rewrite lookup_insert_ne; [done | congruence].
  - destruct (authenticate_cases sha256_hexdigest now n password m)
      as (Hnone & Hwrong & Hright).
    destruct (read_user n m) as [v|] eqn:E;
      [|rewrite (Hnone eq_refl); eauto].
    destruct (decide (password_hash v
                      = hash_password sha256_hexdigest password))
      as [Heq|Hne]; [|rewrite (Hwrong v eq_refl Hne); eauto].
    apply read_user_some in E as (f & Hfile & E).
    destruct (Hright f v Hfile E Heq)
      as (v' & -> & _ & Hname & Hhash & _ & _ & Hcreated).
    cbn [snd users].
    destruct (decide (f = file)) as [->|Hn].
    + rewrite lookup_insert_eq. exists v'. split; [done|].
      rewrite Hu in E. injection E as <-. by repeat split.
    + rewrite lookup_insert_ne by done. eauto.
  - destruct (update_user_address_cases n ip0 port0 m) as (Hnone & Hsome).
    destruct (read_user n m) as [v|] eqn:E;
      [|rewrite (Hnone eq_refl); eauto].
    apply read_user_some in E as (f & Hfile & E).
    destruct (Hsome f v Hfile E)
      as (v' & _ & -> & _ & _ & Hname & Hhash & Hcreated & _).
    destruct (decide (f = file)) as [->|Hn].
    + rewrite lookup_insert_eq. exists v'. split; [done|].
      rewrite Hu in E. injection E as <-. by repeat split.
    + rewrite lookup_insert_ne by done. eauto.
  - eauto.
Qed.
End Calls.

(** X25.  Along any sequence of registrations, authentications, address
    changes and logouts that starts with an empty directory and names
    each user in one way (by a name that is the key of its own file, not
    by a path that leads to the file of another name), every record is
    stored in the file of the name it holds and the current user, when
    there is one, is exactly the stored record of its name: it is never
    stale. *)
Theorem current_user_in_sync sha256_hexdigest ks :
  own_files ks →
  (∀ file u,
     users (run_calls sha256_hexdigest ks fresh) !! file = Some u →
     username u = file)
  ∧ (∀ u,
       get_current_user (run_calls sha256_hexdigest ks fresh) = Some u →
       get_user_info (username u) (run_calls sha256_hexdigest ks fresh)
       = Some u).
Proof.
  intros Hown.
  assert (in_sync (run_calls sha256_hexdigest ks fresh)) as [Hkey Hcur].
  { assert (in_sync fresh) as H0.
    { split; [|done]. intros file u. unfold fresh. cbn [users].
      by rewrite lookup_empty. }
    revert H0. generalize fresh.
    induction Hown as [|k ks Hk _ IH]; intros m Hm; [done|].
    simpl. by apply IH, apply_call_in_sync. }
  split; [intros file u Hu; by apply Hkey|].
  intros u Hu. rewrite get_user_info_read.
  apply Hcur in Hu. apply read_user_some. exists (username u).
  split; [|done]. by apply (Hkey _ _ Hu).
Qed.

Definition alice_calls : list call :=
  [Authenticate 1700000009 "alice" "guess";
   RegisterUser 1700000010 "alice" "guess" "10.6.6.6" 1;
   UpdateUserAddress "alice" "10.0.0.7" 9001;
   Authenticate 1700000020 "alice" "s3cret";
   Logout].

Definition alice_session : list call :=
  [RegisterUser 1700000000 "alice" "s3cret" "10.0.0.5" 9000;
   RegisterUser 1700000001 "a/b" "s3cret" "10.0.0.6" 9000;
   Authenticate 1700000020 "alice" "s3cret";
   UpdateUserAddress "alice" "10.0.0.7" 9001].

Lemma alice_session_own_files : own_files alice_session.
Proof.
  unfold own_files, alice_session.
  repeat apply Forall_cons_2; try apply Forall_nil_2;
    intros name [= <-]; (by left) || (by right).
Qed.

Lemma current_user_in_sync_witness :
  own_files alice_session
  ∧ get_current_user (run_calls toy_digest alice_session fresh)
    = Some {| username := "alice";
              password_hash := "sha256:s3cretnetapp_secure_salt";
              ip := "10.0.0.7"; port := 9001; created_at := 1700000000;
              last_login := Some 1700000020%Z |}
  ∧ get_user_info "alice" (run_calls toy_digest alice_session fresh)
    = Some {| username := "alice";
              password_hash := "sha256:s3cretnetapp_secure_salt";
              ip := "10.0.0.7"; port := 9001; created_at := 1700000000;
              last_login := Some 1700000020%Z |}.
Proof.
  split; [exact alice_session_own_files|].
  assert (get_current_user (run_calls toy_digest alice_session fresh)
          = Some {| username := "alice";
                    password_hash := "sha256:s3cretnetapp_secure_salt";
                    ip := "10.0.0.7"; port := 9001;
                    created_at := 1700000000;
                    last_login := Some 1700000020%Z |}) as H
    by (vm_compute; reflexivity).
  split; [exact H|].
  exact (proj2 (current_user_in_sync toy_digest alice_session
                  alice_session_own_files) _ H).
Defined.

(** Without the condition the current user can be stale: logged in as
    ["alice"] and moved under the name ["./alice"], the file has the new
    address and the current user the old one. *)
Lemma current_user_stale :
  ip <$> get_current_user
           (run_calls toy_digest
              [RegisterUser 1700000000 "alice" "s3cret" "10.0.0.5" 9000;
               Authenticate 1700000020 "alice" "s3cret";
               UpdateUserAddress "./alice" "10.0.0.7" 9001] fresh)
  = Some "10.0.0.5"
  ∧ ip <$> get_user_info "alice"
             (run_calls toy_digest
                [RegisterUser 1700000000 "alice" "s3cret" "10.0.0.5" 9000;
                 Authenticate 1700000020 "alice" "s3cret";
                 UpdateUserAddress "./alice" "10.0.0.7" 9001] fresh)
    = Some "10.0.0.7".
Proof. split; vm_compute; reflexivity. Qed.

(** X26.  No call deletes a user or changes a password: a stored user stays
    stored in the same file with the same name, password hash and
    creation time, whatever calls follow. *)
Theorem accounts_kept sha256_hexdigest ks m name u :
  users m !! name = Some u →
  ∃ u', users (run_calls sha256_hexdigest ks m) !! name = Some u'
    ∧ username u' = username u
    ∧ password_hash u' = password_hash u
    ∧ created_at u' = created_at u.
Proof.
  revert m u. induction ks as [|k ks IH]; intros m u Hu.
  - exists u. by repeat split.
  - destruct (apply_call_same_account sha256_hexdigest k m name u Hu)
      as (u1 & Hu1 & H1 & H2 & H3).
    destruct (IH _ _ Hu1) as (u2 & Hu2 & H4 & H5 & H6).
    exists u2. split; [exact Hu2|]. repeat split; congruence.
Qed.

Definition alice_registered : manager :=
  (register_user toy_digest 1700000000 "alice" "s3cret" "10.0.0.5" 9000
     fresh).2.

Lemma accounts_kept_witness :
  users alice_registered !! "alice"
  = Some {| username := "alice";
            password_hash := "sha256:s3cretnetapp_secure_salt";
            ip := "10.0.0.5"; port := 9000; created_at := 1700000000;
            last_login := None |}
  ∧ users (run_calls toy_digest alice_calls alice_registered) !! "alice"
    = Some {| username := "alice";
              password_hash := "sha256:s3cretnetapp_secure_salt";
              ip := "10.0.0.7"; port := 9001; created_at := 1700000000;
              last_login := Some 1700000020%Z |}
  ∧ ∃ u', users (run_calls toy_digest alice_calls alice_registered)
            !! "alice" = Some u'
      ∧ password_hash u' = "sha256:s3cretnetapp_secure_salt".
Proof.
  assert (users alice_registered !! "alice"
          = Some {| username := "alice";
                    password_hash := "sha256:s3cretnetapp_secure_salt";
                    ip := "10.0.0.5"; port := 9000;
                    created_at := 1700000000; last_login := None |}) as H
    by (vm_compute; reflexivity).
  split; [exact H|]. split; [vm_compute; reflexivity|].
  destruct (accounts_kept toy_digest alice_calls alice_registered "alice"
              _ H) as (u' & Hu' & _ & Hhash & _).
  exists u'. split; [exact Hu' | exact Hhash].
Defined.

(** *** Listing the users *)

(** X27.  [get_all_users] lists exactly the users stored in [users_dir],
    each with its name, address, port and last login, and with neither
    the password hash nor the creation time.  A user file that a name
    such as ["../eve"] put outside the directory is not listed. *)
Theorem get_all_users_lists listdir m lu :
  (∀ (us : gmap string user) k,
     k ∈ listdir us ↔ is_Some (us !! k) ∧ in_users_dir k = true) →
  lu ∈ get_all_users listdir m ↔
  ∃ file u, users m !! file = Some u ∧ in_users_dir file = true
    ∧ listed_username lu = username u ∧ listed_ip lu = ip u
    ∧ listed_port lu = port u ∧ listed_last_login lu = last_login u.
Proof.
  intros Hspec. unfold get_all_users. rewrite list_elem_of_omap. split.
  - intros (f & [_ Hdir]%Hspec & Hf).
    destruct (users m !! f) as [u|] eqn:E; [|done].
    injection Hf as <-. exists f, u. by repeat split.
  - intros (file & u & E & Hdir & H1 & H2 & H3 & H4). exists file.
    split; [apply Hspec; eauto|]. rewrite E. simpl. f_equal.
    destruct lu. unfold list_user. simpl in *. congruence.
Qed.

Definition listdir_users (us : gmap string user) : list string :=
  filter (λ k, in_users_dir k = true) (map_to_list us).*1.

Lemma listdir_users_spec (us : gmap string user) k :
  k ∈ listdir_users us ↔ is_Some (us !! k) ∧ in_users_dir k = true.
Proof.
  unfold listdir_users. rewrite list_elem_of_filter, list_elem_of_fmap.
  split.
  - intros [Hdir ([k' r] & -> & Hin)]. split; [|done].
    apply elem_of_map_to_list in Hin. eauto.
  - intros [[r Hr] Hdir]. split; [done|]. exists (k, r).
    split; [done|]. by apply elem_of_map_to_list.
Qed.

(** ["alice"] in [users_dir] and ["../eve"] beside it, in [var]. *)
Definition alice_and_eve : manager :=
  run_calls toy_digest
    [RegisterUser 1700000000 "alice" "s3cret" "10.0.0.5" 9000;
     RegisterUser 1700000001 "../eve" "hunter2" "10.0.0.6" 9000] fresh.

Lemma get_all_users_lists_witness :
  (∀ (us : gmap string user) k,
     k ∈ listdir_users us ↔ is_Some (us !! k) ∧ in_users_dir k = true)
  ∧ username <$> users alice_and_eve !! "/var/eve.json" = Some "../eve"
  ∧ get_all_users listdir_users alice_and_eve
    = [{| listed_username := "alice"; listed_ip := "10.0.0.5";
          listed_port := 9000; listed_last_login := None |}]
  ∧ {| listed_username := "alice"; listed_ip := "10.0.0.5";
       listed_port := 9000; listed_last_login := None |}
      ∈ get_all_users listdir_users alice_and_eve.
Proof.
  split; [exact listdir_users_spec|]. split; [vm_compute; reflexivity|].
  split; [vm_compute; reflexivity|].
  apply (get_all_users_lists listdir_users alice_and_eve _
           listdir_users_spec).
  eexists "alice", _. split; [vm_compute; reflexivity|]. by repeat split.
Defined.

End UserExtras.
